(* ===== verification/_CoqProject ===== *)
-Q . S2P
Prelude.v
JsNumber.v
TypedArray.v
Preprocess.v
Ranking.v
Pipeline.v
EventLoop.v
Rounding.v
