(* ===== verification/Prelude.v ===== *)
(** * A verification development of [src/script.js] (fruit image classifier)

    The program is one browser script.  On page load [loadModel] (lines
    13-22) creates an ONNX inference session and stores it in the global
    [model].  On every [change] event of the file input,
    [uploadAndClassifyImage] (lines 52-119) reads the file with a
    [FileReader]; its [onloadend] callback sets the preview's [src] and
    decodes the data URL as an [Image]; the image's [onload] callback
    writes "Classifying...", calls [preprocessImage] (lines 25-49: draw on
    a 177x177 canvas, read the RGBA bytes, write a channel-planar
    [Float32Array] of 3*177*177 normalised values, wrap it in an
    [ort.Tensor]), checks that the model is loaded, awaits [model.run],
    and renders one row per probability plus the arg-max ("Most Likely
    Class", lines 83-110); any exception is caught, logged and replaced by
    one error message (lines 111-114).

    Files, in dependency order (as listed in _CoqProject):
    - [Prelude] (this file): the exception type [exc] for [throw], the
      state-and-exception monad [st] ([try!]/[catch!] in [js_scope]; the
      writes made before a throw persist, as in JavaScript); arrays read
      and written at an integer index, [zlookup] ([l.[i]]) and [zinsert]
      ([l.[i := x]], a store out of range does nothing, as for typed
      arrays); the hint database [js], the tactics [invc], [case_exc] and
      [case_Zcmp], and the list and index lemmas the components share.
    - [JsNumber], Module [Number]: JavaScript numbers as the Standard
      Library's [SpecFloat] binary64 (binary32 for [Math.fround]), with
      division, multiplication, strict equality, [Math.max] over a spread
      array (NaN and signed zeros as ECMAScript specifies) and
      [toFixed(2)] (including the exponent form above 1e21).
    - [TypedArray], Module [Float32Array]: creation filled with +0,
      indexed store converting with [Math.fround], [indexOf] by [===].
    - [Preprocess], Module [Preprocess]: [preprocessImage] and its loop
      [pixel_loop]; the canvas is the class [Canvas] with its laws
      [CanvasLaws]; [ort.Tensor] checks the data length against the dims.
    - [Ranking], Module [Ranking]: [maxIndex], the rows and the top line
      as [fragment]s written by [show_results] in the [st] monad, and the
      specification's contract [rank_spec] with its view [rank_view].
    - [Pipeline], Module [Pipeline]: the page as a record (global model,
      preview [src], results element, console, pending callbacks); each
      callback of the script as a function or an [st] computation
      ([on_model_loaded], [uploadAndClassifyImage], [onloadend],
      [image_onload], [after_run]); the browser's event loop as the step
      relation [step], which runs any pending [callback] or a new
      [change] event, so every interleaving is a path of [rtc step] from
      [init_page].  The reader, the decoder and the session are
      parameters; [demo_read], [demo_decode] and [demo_session] are a
      concrete instance used by the examples.
    - [EventLoop], Module [EventLoop]: the weight of the pending
      callbacks, which every callback lowers, and the invariant that
      "Classifying..." is shown only while a run is pending.
    - [Rounding], Module [Rounding]: the rounding step of [toFixed] as
      ECMAScript states it, on the exact rational value of a Number, and
      the percentage the script shows for a probability.

    What the theorems show:
    - preprocessing: the loop computes the channel-planar layout
      ([pixel_loop_planar], for any side and any fuel covering the
      pixels); [preprocessImage] returns, without throwing, the tensor of
      dims [1,3,177,177] of that layout; every value lies in [0,1];
      the alpha bytes are ignored; the round trip of the byte
      normalisation is within 2^-17 and exact only at 0 and 255 (by
      exhaustive evaluation over the 256 bytes);
    - ranking: [indexOf(Math.max(...))] is the first arg-max; for ten
      NaN-free values the rendering is the view of a ranking satisfying
      the contract; NaN, empty and longer outputs throw a TypeError, a
      shorter one is silently truncated; the percentage shown,
      [(prob * 100).toFixed(2)], is prob * 100 rounded to hundredths
      (the nearest, the larger on a tie), as ECMAScript requires;
    - the page: invariants of every reachable page, by induction on
      [rtc step] ([page_inv]: at most one model load pending, the model
      written once, no [model.run] pending without a model, the results
      element never partial); the handlers on every branch, errors
      included; the refinement of the contract end to end; the race in
      which a stale classification is shown beside a newer preview;
    - the event loop: the callbacks terminate (no infinite chain without
      a user event, by a weight that every callback lowers); from every
      reachable page they can all complete, and once none is left the
      page does not show "Classifying...".

    Bounds and fuel: [pixel_loop] recurses on a fuel; [preprocess_pixels]
    gives it [length data], which covers the [length data / 4]
    iterations, and [pixel_loop_terminates] shows that any fuel of at
    least [side * side] gives the same result.  Numbers are kept at their
    binary64/binary32 precision, never as reals; byte facts are checked
    over all 256 values with [forall_bytes].

    Not modelled: the DOM lookups (lines 4-7), which only name the
    elements whose state the page record holds (the [change] listener of
    line 125 is the rule [step_change]); the canvas's drawing and resampling
    (an interface with laws); the inference engine and its model file (a
    record of names and a [run] function); the HTML text of the rendered
    fragments (the fragments keep the label and the percentage);
    [toUpperCase] beyond ASCII; the constant [MODEL_URL] (line 2), which
    only names the model file. *)

From stdpp Require Import base list strings.
From Stdlib Require Import ZArith Lia.

(** ** JavaScript exceptions *)

(** The exceptions the script can raise: [new Error(...)] thrown by the
    script itself, [TypeError] raised by the engine (reading a property of
    [undefined]), and a rejected promise of an external API. *)
Inductive js_error : Type :=
  | Error (msg : string)
  | TypeError (msg : string)
  | Rejection (reason : string).

(** A computation that returns normally or throws. *)
Inductive exc (A : Type) : Type :=
  | Ok (a : A)
  | Throw (e : js_error).
Arguments Ok {A} a.
Arguments Throw {A} e.

#[export] Instance exc_ret : MRet exc := λ A a, Ok a.
#[export] Instance exc_bind : MBind exc :=
  λ A B f m, match m with Ok a => f a | Throw e => Throw e end.

(** A statement sequence over a mutable state [S] that may throw: the
    writes made before a [throw] persist, as in JavaScript. *)
Definition st (S A : Type) : Type := S → S * exc A.

#[export] Instance st_ret {S} : MRet (st S) := λ A a s, (s, Ok a).
#[export] Instance st_bind {S} : MBind (st S) :=
  λ A B f m s, match m s with (s', Ok a) => f a s' | (s', Throw e) => (s', Throw e) end.

Definition st_put {S} (s : S) : st S unit := λ _, (s, Ok ()).
Definition st_modify {S} (f : S → S) : st S unit := λ s, (f s, Ok ()).
Definition st_lift {S A} (m : exc A) : st S A := λ s, (s, m).

(** [try { m } catch (e) { h(e) }] *)
Definition st_catch {S A} (m : st S A) (h : js_error → st S A) : st S A :=
  λ s, match m s with (s', Ok a) => (s', Ok a) | (s', Throw e) => h e s' end.

(** ** Arrays at a JavaScript index *)

(** Reading [a[i]]: [undefined] (here [None]) outside [0 .. length-1]. *)
Definition zlookup {A} (i : Z) (l : list A) : option A :=
  if (0 <=? i)%Z then l !! Z.to_nat i else None.

(** Storing [a[i] = x] into a typed array: ignored outside the array. *)
Definition zinsert {A} (i : Z) (x : A) (l : list A) : list A :=
  if (0 <=? i)%Z then <[Z.to_nat i := x]> l else l.

Declare Scope js_scope.
Delimit Scope js_scope with js.
Notation "'try!' m 'catch!' h" := (st_catch m h)
  (at level 10, m at level 100, h at level 200) : js_scope.
Notation "l .[ i ]" := (zlookup i l) (at level 1, format "l .[ i ]") : js_scope.
Notation "l .[ i := x ]" := (zinsert i x l)
  (at level 1, format "l .[ i  :=  x ]") : js_scope.
Open Scope js_scope.

(** ** Shared tactics *)

Ltac invc H := inversion H; subst; clear H.

(** Split every [Ok]/[Throw] match and every boolean test of the goal. *)
Ltac case_exc :=
  repeat match goal with
  | |- context [match ?m with Ok _ => _ | Throw _ => _ end] =>
      let E := fresh "E" in destruct m eqn:E
  | |- context [if ?b then _ else _] =>
      let E := fresh "E" in destruct b eqn:E
  end.

(** Case on every integer comparison [a =? b], [a <? b], [a <=? b] of the
    goal, with the arithmetic fact it gives. *)
Ltac case_Zcmp :=
  repeat match goal with
  | |- context [(?a =? ?b)%Z] => destruct (Z.eqb_spec a b)
  | |- context [(?a <? ?b)%Z] => destruct (Z.ltb_spec a b)
  | |- context [(?a <=? ?b)%Z] => destruct (Z.leb_spec a b)
  end.

(** ** Generic lemmas *)

Create HintDb js.
Create Rewrite HintDb js.

Section ZIndex.
Context {A : Type}.
Implicit Types (l : list A) (x : A) (i j : Z).

Lemma zlookup_nat l (n : nat) : l.[Z.of_nat n] = l !! n.
Proof. unfold zlookup. rewrite Nat2Z.id. destruct (Z.leb_spec 0 (Z.of_nat n)); [done | lia]. Qed.

Lemma zlookup_neg l i : (i < 0)%Z → l.[i] = None.
Proof. unfold zlookup. destruct (Z.leb_spec 0 i); [lia | done]. Qed.

Lemma zlookup_Some l i x : l.[i] = Some x → (0 ≤ i < Z.of_nat (length l))%Z.
Proof.
  unfold zlookup. destruct (Z.leb_spec 0 i); [|done].
  intros Hl. apply lookup_lt_Some in Hl. lia.
Qed.

Lemma zlookup_lt l i : (0 ≤ i < Z.of_nat (length l))%Z → is_Some (l.[i]).
Proof.
  intros Hi. unfold zlookup. destruct (Z.leb_spec 0 i); [|lia].
  apply lookup_lt_is_Some. lia.
Qed.

Lemma length_zinsert l i x : length (l.[i := x]) = length l.
Proof. unfold zinsert. destruct (0 <=? i)%Z; [apply length_insert | done]. Qed.

Lemma zlookup_zinsert_eq l i x :
  (0 ≤ i < Z.of_nat (length l))%Z → (l.[i := x]).[i] = Some x.
Proof.
  intros Hi. unfold zinsert, zlookup. destruct (Z.leb_spec 0 i); [|lia].
  apply list_lookup_insert_eq. lia.
Qed.

Lemma zlookup_zinsert_ne l i j x : i ≠ j → (l.[i := x]).[j] = l.[j].
Proof.
  intros Hij. unfold zinsert, zlookup.
  destruct (Z.leb_spec 0 i), (Z.leb_spec 0 j); try done.
  apply list_lookup_insert_ne. lia.
Qed.

Lemma zinsert_out_of_range l i x :
  ¬ (0 ≤ i < Z.of_nat (length l))%Z → l.[i := x] = l.
Proof.
  intros Hi. unfold zinsert. destruct (Z.leb_spec 0 i); [|done].
  apply list_insert_ge. lia.
Qed.

(** Two arrays of the same length agree when they agree at every index. *)
Lemma list_eq_zlookup l1 l2 :
  length l1 = length l2 → (∀ i, (0 ≤ i < Z.of_nat (length l1))%Z → l1.[i] = l2.[i]) →
  l1 = l2.
Proof.
  intros Hlen H. apply list_eq. intros n.
  destruct (decide (n < length l1)) as [Hn|Hn].
  - rewrite <- !zlookup_nat. apply H. lia.
  - rewrite !(proj2 (lookup_ge_None _ _)); [done | lia | lia].
Qed.
Lemma zlookup_fmap_seqZ (f : Z → A) n k :
  (0 ≤ k < n)%Z → (f <$> seqZ 0 n).[k] = Some (f k).
Proof.
  intros Hk. unfold zlookup. destruct (Z.leb_spec 0 k); [|lia].
  rewrite list_lookup_fmap.
  replace (seqZ 0 n !! Z.to_nat k) with (Some k); [done|].
  symmetry. apply lookup_seqZ. lia.
Qed.

Lemma length_fmap_seqZ (f : Z → A) n : length (f <$> seqZ 0 n) = Z.to_nat n.
Proof. by rewrite length_fmap, length_seqZ. Qed.
Lemma length_concat_replicate (l : list A) n :
  length (concat (replicate n l)) = n * length l.
Proof. induction n as [|n IH]; simpl; [done|]. rewrite length_app, IH. lia. Qed.

(** Reading a list repeated [n] times. *)
Lemma lookup_concat_replicate (l : list A) n p c :
  p < n → c < length l → concat (replicate n l) !! (length l * p + c) = l !! c.
Proof.
  induction n as [|n IH] in p |- *; intros Hp Hc; [lia|]. simpl.
  destruct p as [|p].
  - rewrite lookup_app_l by lia. f_equal. lia.
  - rewrite lookup_app_r by lia.
    replace (length l * S p + c - length l) with (length l * p + c) by lia.
    apply IH; lia.
Qed.
End ZIndex.

(** A boolean property of a byte value, checked on all of 0 .. 255 by
    evaluation, holds of every byte. *)
Definition forall_bytes (P : Z → bool) : bool := forallb P (seqZ 0 256).

Lemma forall_bytes_spec P :
  forall_bytes P = true → ∀ v, (0 ≤ v ≤ 255)%Z → P v = true.
Proof.
  unfold forall_bytes. rewrite forallb_forall. intros H v Hv.
  apply H, list_elem_of_In, elem_of_seqZ. lia.
Qed.

Lemma lookup_app_length {A} (l k : list A) (i : nat) : (l ++ k) !! (length l + i) = k !! i.
Proof. rewrite lookup_app_r by lia. f_equal. lia. Qed.

Lemma delete_app_length {A} (l k : list A) (i : nat) :
  delete (length l + i) (l ++ k) = l ++ delete i k.
Proof. induction l as [|x l IH]; simpl; [done|]. by rewrite IH. Qed.

Lemma delete_cons_0 {A} (x : A) (l : list A) : delete 0 (x :: l) = l.
Proof. done. Qed.

Lemma delete_cons_S {A} (x : A) (l : list A) i : delete (S i) (x :: l) = x :: delete i l.
Proof. done. Qed.

Lemma zip_with_fmap_zip {A B C} (f : A → B → C) (l : list A) (k : list B) :
  zip_with f l k = (λ '(a, b), f a b) <$> zip l k.
Proof. induction l as [|a l IH] in k |- *; destruct k; simpl; f_equal; auto. Qed.

(** The byte [c] of the four-byte group [a]. *)
Lemma mod4_offset a c : (0 ≤ c < 4)%Z → ((4 * a + c) mod 4)%Z = c.
Proof.
  intros Hc. rewrite Z.add_comm, Z.mul_comm, Z.mod_add by lia.
  by apply Z.mod_small.
Qed.

#[export] Hint Rewrite @length_zinsert @zlookup_nat @length_fmap_seqZ : js.
#[export] Hint Resolve zlookup_lt : js.
