(* ===== verification/JsNumber.v ===== *)
(** * JavaScript numbers used by [src/script.js]

    A JavaScript Number is an IEEE-754 binary64 value; a [Float32Array]
    element is a binary32 value.  Both are the Standard Library's
    [SpecFloat.spec_float] (a sign, a positive mantissa and an exponent,
    infinities and one NaN) with the format parameters (53, 1024) and
    (24, 128); every operation rounds to nearest, ties to even, as
    ECMAScript requires.  This file holds the operations the script
    applies to numbers: [data[i] / 255.0], [Math.fround] (the conversion
    of a [Float32Array] store), [prob * 100], strict equality ([===], used
    by [indexOf]), [Math.max(...probabilities)] and [toFixed(2)], with the
    order facts that the ranking proofs use. *)

From stdpp Require Import base list strings.
From Stdlib Require Import ZArith QArith SpecFloat DecimalString Lia.
From S2P Require Import Prelude.
Local Close Scope Q_scope.

Module Number.

(** ** Values and arithmetic *)

Definition number := spec_float.

#[export] Instance number_eq_dec : EqDecision number.
Proof. unfold number. solve_decision. Defined.

Definition NaN : number := S754_nan.
Definition neg_infinity : number := S754_infinity true.
Definition pos_zero : number := S754_zero false.

(** The Number with the integer value [z] (exact for |z| < 2^53). *)
Definition of_Z (z : Z) : number := binary_normalize 53 1024 z 0 false.

Definition div (x y : number) : number := SFdiv 53 1024 x y.
Definition mul (x y : number) : number := SFmul 53 1024 x y.

(** [Math.fround]: round a binary64 value to binary32 and return it as a
    Number again.  A [Float32Array] store applies exactly this conversion. *)
Definition fround (x : number) : number :=
  match x with
  | S754_finite s m e =>
      match binary_round 24 128 s m e with
      | S754_finite s' m' e' => binary_round 53 1024 s' m' e'
      | y => y
      end
  | y => y
  end.

(** [x === y] and [x < y] on Numbers: NaN is unordered and unequal to
    everything, [+0 === -0]. *)
Definition strict_eq (x y : number) : bool := SFeqb x y.
Definition lt (x y : number) : bool := SFltb x y.

Definition is_nan (x : number) : bool :=
  match x with S754_nan => true | _ => false end.

(** ** Math.max (ECMAScript, Math.max ( ...args ))

    [highest] starts at -Infinity; a NaN argument makes the result NaN;
    +0 replaces a -0 highest; a greater argument replaces highest. *)
Fixpoint max_loop (highest : number) (args : list number) : number :=
  match args with
  | [] => highest
  | S754_nan :: _ => NaN
  | x :: args' =>
      let h1 := match x, highest with
                | S754_zero false, S754_zero true => x
                | _, _ => highest
                end in
      max_loop (if lt h1 x then x else h1) args'
  end.

Definition Math_max (args : list number) : number := max_loop neg_infinity args.

(** ** The numeric value of a finite Number *)

Definition to_Q (x : number) : option Q :=
  match x with
  | S754_zero _ => Some 0%Q
  | S754_finite s m e =>
      Some (inject_Z (if s then Zneg m else Zpos m) * Qpower (inject_Z 2) e)%Q
  | _ => None
  end.

(** ** Number::toString for a positive finite x >= 10^21

    ECMAScript (Number::toString, steps 5-10): the least [k] and a [k]-digit
    [s] with [s * 10^(n-k)] rounding back to [x] (the closest such [s], the
    even one on a tie); as [n] > 21 the result is the exponential form
    [d.ddde+(n-1)].  Seventeen digits always suffice for binary64. *)

Definition decimal_of_Z (n : Z) : string :=
  if (n =? 0)%Z then "0" else NilEmpty.string_of_uint (N.to_uint (Z.to_N n)).

Definition num_digits (X : Z) : Z := Z.of_nat (String.length (decimal_of_Z X)).

(** The [k]-digit candidates [s] for [x = X2 / D], with [n] digits before
    the point: the ones that round back to [x], the closest first. *)
Definition shortest_candidate (x : number) (X2 D n k : Z) : option Z :=
  let q := (n - k)%Z in
  let s_lo := (X2 / (D * 10 ^ q))%Z in
  let s_hi := (s_lo + 1)%Z in
  let ok s := strict_eq (of_Z (s * 10 ^ q)) x in
  let dist s := Z.abs (s * 10 ^ q * D - X2) in
  match ok s_lo, ok s_hi with
  | true, true =>
      Some (if (dist s_lo <? dist s_hi)%Z then s_lo
            else if (dist s_hi <? dist s_lo)%Z then s_hi
            else if Z.even s_lo then s_lo else s_hi)
  | true, false => Some s_lo
  | false, true => Some s_hi
  | false, false => None
  end.

Fixpoint shortest_search (x : number) (X2 D n k : Z) (fuel : nat) : Z * Z :=
  match fuel with
  | O => (X2 / (D * 10 ^ (n - k)), k)%Z
  | S fuel =>
      match shortest_candidate x X2 D n k with
      | Some s => (s, k)
      | None => shortest_search x X2 D n (k + 1) fuel
      end
  end.

Definition toString_large (m : positive) (e : Z) : string :=
  let x := S754_finite false m e in
  let X2 := (Zpos m * 2 ^ Z.max e 0)%Z in
  let D := (2 ^ Z.max (- e) 0)%Z in
  let n := num_digits (X2 / D) in
  let '(s, k) := shortest_search x X2 D n 1 16 in
  (* a rounded-up [s] of [k + 1] digits is [10^(k-1)] one place higher *)
  let '(s, n) := if (s =? 10 ^ k)%Z then ((s / 10)%Z, (n + 1)%Z) else (s, n) in
  let digits := decimal_of_Z s in
  let mantissa :=
    if (k =? 1)%Z then digits
    else String.append (String.substring 0 1 digits)
           (String.append "." (String.substring 1 (Z.to_nat k - 1) digits)) in
  String.append mantissa (String.append "e+" (decimal_of_Z (n - 1))).

(** ** Number.prototype.toFixed (ECMAScript, toFixed ( fractionDigits ))

    For a finite [x] with |x| < 10^21 the result is the sign of a negative
    [x], then the integer [n] closest to |x| * 10^f (the larger one on a
    tie) written in decimal with a point before its last [f] digits,
    padded with zeros.  [NaN] and the infinities print as their
    [Number::toString]; |x| >= 10^21 prints |x| with [toString_large]. *)

(** |m * 2^e| * 10^f rounded half up, for a positive mantissa. *)
Definition scaled_round (m : positive) (e : Z) (f : nat) : Z :=
  let num := (Zpos m * 10 ^ Z.of_nat f)%Z in
  if (0 <=? e)%Z then (num * 2 ^ e)%Z
  else let d := (2 ^ (- e))%Z in ((2 * num + d) / (2 * d))%Z.

(** |m * 2^e| >= 10^21. *)
Definition ge_1e21 (m : positive) (e : Z) : bool :=
  if (0 <=? e)%Z then (10 ^ 21 <=? Zpos m * 2 ^ e)%Z
  else (10 ^ 21 * 2 ^ (- e) <=? Zpos m)%Z.

(** Steps 10.b and 10.c: the digits of [n] with a point before the last
    [f] of them. *)
Definition fixed_digits (n : Z) (f : nat) : string :=
  let m := decimal_of_Z n in
  if decide (f = 0) then m
  else
    let k := String.length m in
    let '(m, k) := if decide (k ≤ f)
                   then (String.append (String.concat "" (replicate (f + 1 - k) "0")) m, f + 1)
                   else (m, k) in
    String.append (String.substring 0 (k - f) m) (String.append "." (String.substring (k - f) f m)).

Definition toFixed (f : nat) (x : number) : string :=
  match x with
  | S754_nan => "NaN"
  | S754_infinity false => "Infinity"
  | S754_infinity true => "-Infinity"
  | S754_zero _ => fixed_digits 0 f
  | S754_finite s m e =>
      let sgn := if s then "-" else "" in
      if ge_1e21 m e then String.append sgn (toString_large m e)
      else String.append sgn (fixed_digits (scaled_round m e f) f)
  end.

(** ** The order of non-NaN Numbers

    [SFcompare] orders two non-NaN values lexicographically on a key:
    the class (-Infinity, negative, zero, positive, +Infinity), then the
    exponent and the mantissa (both negated for negative values).  The
    order facts of [<] and [===] follow from those of the key. *)
Definition order_key (x : number) : Z * Z * Z :=
  match x with
  | S754_infinity true => (-2, 0, 0)%Z
  | S754_finite true m e => (-1, - e, Zneg m)%Z
  | S754_zero _ | S754_nan => (0, 0, 0)%Z
  | S754_finite false m e => (1, e, Zpos m)%Z
  | S754_infinity false => (2, 0, 0)%Z
  end.

Definition lex_lt (k1 k2 : Z * Z * Z) : Prop :=
  let '(a1, b1, c1) := k1 in let '(a2, b2, c2) := k2 in
  (a1 < a2 ∨ a1 = a2 ∧ (b1 < b2 ∨ b1 = b2 ∧ c1 < c2))%Z.

Definition lex_le (k1 k2 : Z * Z * Z) : Prop := k1 = k2 ∨ lex_lt k1 k2.

Definition key_compare (k1 k2 : Z * Z * Z) : comparison :=
  let '(a1, b1, c1) := k1 in let '(a2, b2, c2) := k2 in
  match Z.compare a1 a2 with
  | Eq => match Z.compare b1 b2 with Eq => Z.compare c1 c2 | o => o end
  | o => o
  end.

Lemma key_compare_spec k1 k2 :
  CompareSpec (k1 = k2) (lex_lt k1 k2) (lex_lt k2 k1) (key_compare k1 k2).
Proof.
  destruct k1 as [[a1 b1] c1], k2 as [[a2 b2] c2]; simpl.
  destruct (Z.compare_spec a1 a2) as [->| |];
    [destruct (Z.compare_spec b1 b2) as [->| |];
       [destruct (Z.compare_spec c1 c2) as [->| |] |..] |..];
    constructor; auto; lia.
Qed.

Lemma lex_lt_irrefl k : ¬ lex_lt k k.
Proof. destruct k as [[a b] c]; simpl; lia. Qed.

Lemma lex_lt_trans k1 k2 k3 : lex_lt k1 k2 → lex_lt k2 k3 → lex_lt k1 k3.
Proof. destruct k1 as [[??]?], k2 as [[??]?], k3 as [[??]?]; simpl; lia. Qed.

Lemma lex_le_trans k1 k2 k3 : lex_le k1 k2 → lex_le k2 k3 → lex_le k1 k3.
Proof.
  unfold lex_le. intros [->|H12] [->|H23]; eauto using lex_lt_trans.
Qed.

Lemma lex_le_lt_trans k1 k2 k3 : lex_le k1 k2 → lex_lt k2 k3 → lex_lt k1 k3.
Proof. intros [->|H12] H23; eauto using lex_lt_trans. Qed.

Lemma lex_le_not_lt k1 k2 : lex_le k1 k2 ↔ ¬ lex_lt k2 k1.
Proof.
  unfold lex_le. split.
  - intros [->|H] H'; [apply (lex_lt_irrefl _ H') |].
    apply (lex_lt_irrefl k1). eauto using lex_lt_trans.
  - intros H. destruct (key_compare_spec k1 k2); tauto.
Qed.

Definition not_nan (x : number) : Prop := is_nan x = false.

Lemma not_nan_ne x : not_nan x ↔ x ≠ NaN.
Proof. unfold not_nan. by destruct x. Qed.

Lemma SFcompare_key x y :
  not_nan x → not_nan y →
  SFcompare x y = Some (key_compare (order_key x) (order_key y)).
Proof.
  unfold not_nan.
  destruct x as [sx|sx| |sx mx ex], y as [sy|sy| |sy my ey]; try discriminate;
    intros _ _; destruct sx, sy; try reflexivity;
    unfold order_key, key_compare; rewrite ?Z.compare_opp, ?(Z.compare_antisym ex ey);
    simpl; destruct (Z.compare ex ey); reflexivity.
Qed.

(** Closes a goal with contradictory [lex_lt] hypotheses. *)
Ltac lex_contra :=
  match goal with
  | H : lex_lt ?k ?k |- _ => destruct (lex_lt_irrefl _ H)
  | H1 : lex_lt ?a ?b, H2 : lex_lt ?b ?a |- _ =>
      destruct (lex_lt_irrefl _ (lex_lt_trans _ _ _ H1 H2))
  | H : ?a = ?b, H1 : lex_lt ?a ?b |- _ => rewrite H in H1; destruct (lex_lt_irrefl _ H1)
  | H : ?a = ?b, H1 : lex_lt ?b ?a |- _ => rewrite H in H1; destruct (lex_lt_irrefl _ H1)
  end.

Lemma lt_key x y :
  not_nan x → not_nan y → lt x y = true ↔ lex_lt (order_key x) (order_key y).
Proof.
  intros Hx Hy. unfold lt, SFltb. rewrite SFcompare_key by done.
  destruct (key_compare_spec (order_key x) (order_key y)); split; try done;
    intros; lex_contra.
Qed.

Lemma strict_eq_key x y :
  not_nan x → not_nan y → strict_eq x y = true ↔ order_key x = order_key y.
Proof.
  intros Hx Hy. unfold strict_eq, SFeqb. rewrite SFcompare_key by done.
  destruct (key_compare_spec (order_key x) (order_key y)); split; try done;
    intros; lex_contra.
Qed.

Lemma strict_eq_nan_l y : strict_eq NaN y = false.
Proof. reflexivity. Qed.

Lemma strict_eq_nan_r x : strict_eq x NaN = false.
Proof. by destruct x. Qed.

Lemma strict_eq_refl x : not_nan x → strict_eq x x = true.
Proof. intros Hx. by apply strict_eq_key. Qed.

Lemma lt_nan_l y : lt NaN y = false.
Proof. reflexivity. Qed.

Lemma key_neg_infinity x :
  not_nan x → lex_le (order_key x) (order_key neg_infinity) → x = neg_infinity.
Proof.
  unfold not_nan. destruct x as [s|s| |s m e]; try discriminate;
    destruct s; unfold lex_le; intros _ [H|H]; simpl in H; simplify_eq; try done; lia.
Qed.


Lemma lt_not_nan x y : lt x y = true → not_nan x ∧ not_nan y.
Proof. unfold lt, SFltb. by destruct x, y. Qed.

Lemma lt_trans x y z : lt x y = true → lt y z = true → lt x z = true.
Proof.
  intros Hxy Hyz.
  destruct (lt_not_nan x y Hxy) as [Hx Hy], (lt_not_nan y z Hyz) as [_ Hz].
  apply lt_key in Hxy, Hyz; [|done..]. apply lt_key; [done..|].
  by eapply lex_lt_trans.
Qed.

Lemma lt_false_key x y :
  not_nan x → not_nan y → lt x y = false ↔ lex_le (order_key y) (order_key x).
Proof.
  intros Hx Hy. rewrite lex_le_not_lt, <- lt_key by done.
  destruct (lt x y); intuition congruence.
Qed.

(** ** Math.max *)

(** One iteration of [max_loop] on a non-NaN argument. *)
Definition max_step (highest x : number) : number :=
  let h1 := match x, highest with
            | S754_zero false, S754_zero true => x
            | _, _ => highest
            end in
  if lt h1 x then x else h1.

Lemma max_loop_cons h x args :
  not_nan x → max_loop h (x :: args) = max_loop (max_step h x) args.
Proof. by destruct x. Qed.

Lemma max_step_cases h x : max_step h x = h ∨ max_step h x = x.
Proof.
  unfold max_step. destruct x as [[]|[]| |[]], h as [[]|[]| |[]];
    repeat case_match; auto.
Qed.

Lemma max_step_key h x :
  not_nan h → not_nan x →
  lex_le (order_key h) (order_key (max_step h x)) ∧
  lex_le (order_key x) (order_key (max_step h x)).
Proof.
  intros Hh Hx.
  set (h1 := match x, h with S754_zero false, S754_zero true => x | _, _ => h end).
  assert (not_nan h1 ∧ order_key h1 = order_key h) as [Hh1 Hk].
  { subst h1. destruct x as [[]|[]| |[]], h as [[]|[]| |[]]; done. }
  unfold max_step. fold h1. destruct (lt h1 x) eqn:Hlt.
  - apply lt_key in Hlt; [|done..]. rewrite Hk in Hlt. split; [right|left]; done.
  - apply lt_false_key in Hlt; [|done..]. rewrite Hk in Hlt |- *. split; [left|]; done.
Qed.

Lemma max_step_not_nan h x : not_nan h → not_nan x → not_nan (max_step h x).
Proof. intros Hh Hx. by destruct (max_step_cases h x) as [->| ->]. Qed.

Lemma max_loop_nan h args : NaN ∈ args → max_loop h args = NaN.
Proof.
  induction args as [|x args IH] in h |- *; intros Hin; [by apply elem_of_nil in Hin|].
  destruct (decide (x = NaN)) as [->|Hx]; [done|].
  apply elem_of_cons in Hin as [Heq|Hin]; [by subst|].
  rewrite max_loop_cons; [by apply IH | by apply not_nan_ne].
Qed.

(** Without NaN, [max_loop] returns the start value or one of the
    arguments, and its key bounds the start value and every argument. *)
Lemma max_loop_spec h args :
  not_nan h → Forall not_nan args →
  let r := max_loop h args in
  not_nan r ∧ (r = h ∨ r ∈ args) ∧
  lex_le (order_key h) (order_key r) ∧ (∀ y, y ∈ args → lex_le (order_key y) (order_key r)).
Proof.
  cbv zeta. induction args as [|x args IH] in h |- *; intros Hh Hall.
  - simpl. split_and!; [done | by left | by left | intros y Hy; by apply elem_of_nil in Hy].
  - apply Forall_cons in Hall as [Hx Hall].
    rewrite max_loop_cons by done.
    destruct (IH (max_step h x)) as (Hnn & Hin & Hle & Hup);
      [by apply max_step_not_nan | done |].
    destruct (max_step_key h x Hh Hx) as [Hkh Hkx].
    split_and!; [done | | eauto using lex_le_trans |].
    + destruct Hin as [Heq|Hin]; [|right; by apply elem_of_cons; right].
      rewrite Heq. destruct (max_step_cases h x) as [->| ->]; [by left | right; by left].
    + intros y Hy. apply elem_of_cons in Hy as [->|Hy]; eauto using lex_le_trans.
Qed.

(** [Math.max] of a non-empty array without NaN is one of its elements
    and bounds every element. *)
Lemma Math_max_spec l :
  Forall not_nan l → l ≠ [] →
  not_nan (Math_max l) ∧ Math_max l ∈ l ∧
  ∀ y, y ∈ l → lex_le (order_key y) (order_key (Math_max l)).
Proof.
  intros Hall Hne. unfold Math_max.
  destruct (max_loop_spec neg_infinity l) as (Hnn & [Heq|Hin] & _ & Hup); [done | done | |].
  - destruct l as [|y l]; [done|].
    assert (y = neg_infinity) as Hy.
    { apply key_neg_infinity; [by apply Forall_cons in Hall as [? _] | rewrite <- Heq; apply Hup; apply list_elem_of_here]. }
    split_and!; [done | rewrite Heq, <- Hy; apply list_elem_of_here | done].
  - done.
Qed.

Lemma Math_max_nan l : NaN ∈ l → Math_max l = NaN.
Proof. apply max_loop_nan. Qed.

End Number.

#[export] Hint Resolve Number.strict_eq_refl Number.lex_lt_irrefl : js.
#[export] Hint Rewrite Number.strict_eq_nan_l Number.strict_eq_nan_r Number.lt_nan_l : js.
