(* ===== verification/TypedArray.v ===== *)
(** * Float32Array, as [src/script.js] uses it

    A [Float32Array] is a fixed-length list of binary32 values, kept here
    as the Numbers they convert to when read.  [new Float32Array(n)] fills
    it with +0; an indexed store [a[i] = v] converts [v] with
    [Math.fround] and is ignored outside [0 .. length-1] (typed arrays do
    not grow); [indexOf] returns the first index whose element is
    strictly equal ([===]) to the argument, or -1.  The script creates the
    preprocessing buffer with [new Float32Array(3 * 177 * 177)] and stores
    into it, and calls [indexOf] on the model's output data. *)

From stdpp Require Import base list.
From Stdlib Require Import ZArith SpecFloat Lia.
From S2P Require Import Prelude JsNumber.

Module Float32Array.
Import Number.

Definition t := list number.

(** [new Float32Array(length)] *)
Definition create (length : Z) : t := replicate (Z.to_nat length) pos_zero.

(** [ta[index] = value] *)
Definition set (ta : t) (index : Z) (value : number) : t := ta.[index := fround value].

(** [%TypedArray%.prototype.indexOf(searchElement)] from index [k] on. *)
Fixpoint indexOf_from (searchElement : number) (k : Z) (ta : t) : Z :=
  match ta with
  | [] => -1
  | x :: ta' => if strict_eq searchElement x then k else indexOf_from searchElement (k + 1) ta'
  end.

Definition indexOf (ta : t) (searchElement : number) : Z := indexOf_from searchElement 0 ta.

(** ** Lemmas *)

Lemma length_create n : (0 ≤ n)%Z → length (create n) = Z.to_nat n.
Proof. intros _. apply length_replicate. Qed.

Lemma zlookup_create n k : (0 ≤ k < n)%Z → (create n).[k] = Some pos_zero.
Proof.
  intros Hk. unfold zlookup. destruct (Z.leb_spec 0 k); [|lia].
  apply lookup_replicate. split; [done | lia].
Qed.

Lemma length_set ta i v : length (set ta i v) = length ta.
Proof. apply length_zinsert. Qed.

Lemma get_set_eq ta i v :
  (0 ≤ i < Z.of_nat (length ta))%Z → (set ta i v).[i] = Some (fround v).
Proof. apply zlookup_zinsert_eq. Qed.

Lemma get_set_ne ta i j v : i ≠ j → (set ta i v).[j] = ta.[j].
Proof. apply zlookup_zinsert_ne. Qed.

Lemma indexOf_from_shift x k ta :
  (indexOf_from x k ta = -1 ∨ k ≤ indexOf_from x k ta)%Z.
Proof.
  induction ta as [|y ta IH] in k |- *; simpl; [by left|].
  destruct (strict_eq x y); [right; lia|].
  destruct (IH (k + 1)%Z) as [->|H]; [by left | right; lia].
Qed.

Lemma indexOf_from_first ta x (n : nat) y k :
  ta !! n = Some y → strict_eq x y = true →
  (∀ j z, (j < n)%nat → ta !! j = Some z → strict_eq x z = false) →
  indexOf_from x k ta = (k + Z.of_nat n)%Z.
Proof.
  induction ta as [|w ta IH] in n, k |- *; intros Hn Heq Hbefore; [done|].
  destruct n as [|n]; simpl in *.
  - injection Hn as ->. rewrite Heq. lia.
  - rewrite (Hbefore 0%nat w) by (done || lia).
    rewrite (IH n (k + 1)%Z); [lia | done | done |].
    intros j z Hj Hz. apply (Hbefore (S j)); [lia | done].
Qed.

(** The first strictly-equal element is found at its index. *)
Lemma indexOf_first ta x (n : nat) y :
  ta !! n = Some y → strict_eq x y = true →
  (∀ j z, (j < n)%nat → ta !! j = Some z → strict_eq x z = false) →
  indexOf ta x = Z.of_nat n.
Proof. intros. unfold indexOf. erewrite indexOf_from_first by eassumption. lia. Qed.

(** No strictly-equal element: -1. *)
Lemma indexOf_none ta x :
  (∀ y, y ∈ ta → strict_eq x y = false) → indexOf ta x = (-1)%Z.
Proof.
  unfold indexOf. generalize 0%Z as k.
  induction ta as [|w ta IH]; intros k Hall; simpl; [done|].
  rewrite Hall by apply list_elem_of_here.
  apply IH. intros y Hy. apply Hall. by apply list_elem_of_further.
Qed.

(** NaN is never found, since [NaN === x] is false. *)
Lemma indexOf_NaN ta : indexOf ta NaN = (-1)%Z.
Proof. apply indexOf_none. intros y _. apply strict_eq_nan_l. Qed.

End Float32Array.

#[export] Hint Rewrite Float32Array.length_set : js.
