(* ===== verification/Preprocess.v ===== *)
(** * [preprocessImage] (src/script.js, lines 25-49)

    The function draws the image on a 177x177 canvas, reads the canvas
    back as RGBA bytes ([getImageData(...).data], four bytes per pixel,
    pixels in row-major order), and loops over the bytes four at a time,
    writing [data[i + c] / 255.0] for the channels c = 0, 1, 2 (red,
    green, blue) at [rowIndex + 177 * colIndex + c * 177 * 177] of a
    [Float32Array(3 * 177 * 177)], where [pixelIndex = i / 4],
    [rowIndex = pixelIndex % 177] and [colIndex = Math.floor(pixelIndex /
    177)].  The buffer is wrapped in an [ort.Tensor] of type ['float32']
    and dimensions [[1, 3, 177, 177]].

    The canvas (drawing and resampling are the browser's) is an interface,
    the class [Canvas] with its laws [CanvasLaws]: the pixels read back
    have length 4 * w * h and are bytes.  The loop is [pixel_loop], with
    the canvas side as a parameter [side] ([preprocessImage] uses 177) and
    fuel for the iterations.  The theorems show that the loop computes the
    channel-planar layout [planar_ref] (index c * side^2 + p for channel c
    of pixel p), that the tensor is built without error and has the
    declared shape, that every value is in [0, 1], that the alpha bytes
    are ignored, the tolerance of the normalisation round trip, and that the result does not depend on
    the fuel once it covers the pixels. *)

From stdpp Require Import base list strings.
From Stdlib Require Import ZArith QArith Qabs SpecFloat Lia.
From S2P Require Import Prelude JsNumber TypedArray.
Local Close Scope Q_scope.

Module Preprocess.
Import Number.

(** ** The canvas interface *)

(** [ctx.drawImage(image, 0, 0, w, h); ctx.getImageData(0, 0, w, h).data] *)
Class Canvas (Image : Type) := canvas_pixels : Image → Z → Z → list Z.

Class CanvasLaws (Image : Type) `{Canvas Image} := {
  canvas_pixels_length w h img :
    (0 ≤ w)%Z → (0 ≤ h)%Z → Z.of_nat (length (canvas_pixels img w h)) = (4 * w * h)%Z;
  canvas_pixels_bytes w h img : Forall (λ v, 0 ≤ v ≤ 255)%Z (canvas_pixels img w h)
}.

(** ** The tensor *)

Record Tensor := mkTensor {
  tensor_type : string;
  tensor_data : list number;
  tensor_dims : list Z
}.

(** [new ort.Tensor(type, data, dims)]: onnxruntime-web throws when the
    product of the dimensions differs from the data length. *)
Definition ort_Tensor (type : string) (data : list number) (dims : list Z) : exc Tensor :=
  if decide (Z.of_nat (length data) = foldr Z.mul 1%Z dims)
  then Ok (mkTensor type data dims)
  else Throw (Error "Tensor's size does not match data length").

(** ** The pixel loop *)

(** [data[i]] converted by the division: [undefined] becomes NaN. *)
Definition byte_value (d : option Z) : number :=
  match d with Some v => of_Z v | None => NaN end.

(** [data[i] / 255.0] *)
Definition normalize (d : option Z) : number := div (byte_value d) (of_Z 255).

(** [for (let i = 0; i < data.length; i += 4) { ... }] with fuel. *)
Fixpoint pixel_loop (side : Z) (data : list Z) (fuel : nat) (i : Z) (input : Float32Array.t)
    : Float32Array.t :=
  match fuel with
  | O => input
  | S fuel =>
      if (i <? Z.of_nat (length data))%Z then
        let pixelIndex := (i / 4)%Z in
        let rowIndex := (pixelIndex mod side)%Z in
        let colIndex := (pixelIndex / side)%Z in
        let input := Float32Array.set input (rowIndex + side * colIndex)%Z
                       (normalize data.[i]) in
        let input := Float32Array.set input (rowIndex + side * colIndex + side * side)%Z
                       (normalize data.[i + 1]) in
        let input := Float32Array.set input (rowIndex + side * colIndex + 2 * side * side)%Z
                       (normalize data.[i + 2]) in
        pixel_loop side data fuel (i + 4)%Z input
      else input
  end.

(** The buffer and the loop; the fuel [length data] covers the
    [length data / 4] iterations. *)
Definition preprocess_pixels (side : Z) (data : list Z) : Float32Array.t :=
  pixel_loop side data (length data) 0 (Float32Array.create (3 * side * side)).

Definition preprocess_side `{Canvas Image} (side : Z) (image : Image) : exc Tensor :=
  let data := canvas_pixels image side side in
  let input := preprocess_pixels side data in
  ort_Tensor "float32" input [1; 3; side; side]%Z.

(** [preprocessImage(image)] *)
Definition preprocessImage `{Canvas Image} (image : Image) : exc Tensor :=
  preprocess_side 177 image.

(** ** The reference layout: channel-planar, row-major *)

(** The value of channel [k / side^2] of pixel [k mod side^2]. *)
Definition planar_value (side : Z) (data : list Z) (k : Z) : number :=
  let N := (side * side)%Z in
  fround (normalize data.[4 * (k mod N) + k / N]).

Definition planar_ref (side : Z) (data : list Z) : list number :=
  planar_value side data <$> seqZ 0 (3 * side * side).

(** ** Index arithmetic *)

(** [rowIndex + 177 * colIndex] is [pixelIndex]: the variable named
    [rowIndex] holds the column (x) and [colIndex] the row (y) of a
    row-major pixel, and the sum is the row-major index again. *)
Lemma pixel_index_decomp side p :
  (0 < side)%Z → (p mod side + side * (p / side))%Z = p.
Proof. intros Hs. rewrite (Z.div_mod p side) at 3 by lia. lia. Qed.

Section Planes.
Context (N : Z) (HN : (0 < N)%Z).

Lemma plane_mod q c : (0 ≤ q < N)%Z → ((q + c * N) mod N)%Z = q.
Proof. intros Hq. rewrite Z.mod_add by lia. by apply Z.mod_small. Qed.

Lemma plane_div q c : (0 ≤ q < N)%Z → ((q + c * N) / N)%Z = c.
Proof. intros Hq. rewrite Z.div_add by lia. rewrite Z.div_small by done. lia. Qed.

(** An index of a three-plane buffer is a plane offset plus a pixel. *)
Lemma plane_decomp k :
  (0 ≤ k < 3 * N)%Z →
  (k = k mod N + (k / N) * N ∧ 0 ≤ k mod N < N ∧ 0 ≤ k / N < 3)%Z.
Proof.
  intros Hk. split_and!.
  - rewrite (Z.div_mod k N) at 1 by lia. lia.
  - by apply Z.mod_pos_bound.
  - by apply Z.mod_pos_bound.
  - apply Z.div_pos; lia.
  - apply Z.div_lt_upper_bound; lia.
Qed.
End Planes.

(** ** The loop computes the planar layout *)

Section Loop.
Context (side : Z) (data : list Z).
Hypothesis Hside : (0 < side)%Z.
Local Abbreviation N := (side * side)%Z.

(** After [q] iterations the first [q] pixels of every plane hold their
    value and the rest still hold +0. *)
Definition loop_inv (q : Z) (input : list number) : Prop :=
  Z.of_nat (length input) = (3 * N)%Z ∧
  ∀ k, (0 ≤ k < 3 * N)%Z →
    input.[k] = Some (if (k mod N <? q)%Z then planar_value side data k else pos_zero).

Lemma N_pos : (0 < N)%Z.
Proof. lia. Qed.

(** The three stores of one iteration, for pixel [q]. *)
Lemma three_writes input q v0 v1 v2 k :
  Z.of_nat (length input) = (3 * N)%Z → (0 ≤ q < N)%Z → (0 ≤ k < 3 * N)%Z →
  (Float32Array.set (Float32Array.set (Float32Array.set input q v0) (q + N) v1)
     (q + 2 * N) v2).[k] =
  if (k =? q + 2 * N)%Z then Some (fround v2)
  else if (k =? q + N)%Z then Some (fround v1)
  else if (k =? q)%Z then Some (fround v0) else input.[k].
Proof.
  intros Hlen Hq Hk.
  destruct (Z.eqb_spec k (q + 2 * N)) as [->|H2];
    [apply Float32Array.get_set_eq; autorewrite with js; lia|].
  rewrite Float32Array.get_set_ne by lia.
  destruct (Z.eqb_spec k (q + N)) as [->|H1];
    [apply Float32Array.get_set_eq; autorewrite with js; lia|].
  rewrite Float32Array.get_set_ne by lia.
  destruct (Z.eqb_spec k q) as [->|H0];
    [apply Float32Array.get_set_eq; autorewrite with js; lia|].
  by rewrite Float32Array.get_set_ne by lia.
Qed.

Lemma loop_step q input :
  (0 ≤ q < N)%Z → loop_inv q input →
  loop_inv (q + 1)
    (Float32Array.set (Float32Array.set (Float32Array.set input q
       (normalize data.[4 * q])) (q + N) (normalize data.[4 * q + 1]))
       (q + 2 * N) (normalize data.[4 * q + 2])).
Proof.
  intros Hq [Hlen Hinv]. split; [by autorewrite with js|].
  intros k Hk. rewrite three_writes by done.
  destruct (plane_decomp N N_pos k Hk) as (Hkd & Hkm & Hkc).
  destruct (Z.eq_dec (k mod N) q) as [Hm|Hm].
  - unfold planar_value. rewrite Hm in Hkd |- *.
    destruct (Z.ltb_spec q (q + 1)); [|lia].
    assert (k / N = 0 ∨ k / N = 1 ∨ k / N = 2)%Z as [Hc|[Hc|Hc]] by lia;
      rewrite Hc in Hkd |- *; rewrite Hkd;
      case_Zcmp; try lia; repeat f_equal; lia.
  - assert (k ≠ q ∧ k ≠ q + N ∧ k ≠ q + 2 * N)%Z as (H0 & H1 & H2).
    { pose proof (plane_mod N N_pos q 1) as P1. pose proof (plane_mod N N_pos q 2) as P2.
      rewrite Z.mul_1_l in P1.
      split_and!; intros ->; apply Hm; [apply Z.mod_small; lia | apply P1 | apply P2]; lia. }
    rewrite (proj2 (Z.eqb_neq _ _) H0), (proj2 (Z.eqb_neq _ _) H1),
      (proj2 (Z.eqb_neq _ _) H2), Hinv by done.
    destruct (Z.ltb_spec (k mod N) q), (Z.ltb_spec (k mod N) (q + 1)); done || lia.
Qed.

Hypothesis Hdata : Z.of_nat (length data) = (4 * N)%Z.

(** Enough fuel for the remaining [N - q] pixels finishes the loop. *)
Lemma pixel_loop_inv fuel q input :
  (0 ≤ q ≤ N)%Z → (Z.to_nat (N - q) ≤ fuel)%nat → loop_inv q input →
  loop_inv N (pixel_loop side data fuel (4 * q) input).
Proof.
  induction fuel as [|fuel IH] in q, input |- *; intros Hq Hfuel Hinv; simpl.
  - by replace N with q by lia.
  - rewrite Hdata. destruct (Z.ltb_spec (4 * q) (4 * N)) as [Hlt|Hge].
    + replace (4 * q / 4)%Z with q by (rewrite Z.mul_comm, Z.div_mul; lia).
      rewrite pixel_index_decomp by done.
      replace (q + 2 * side * side)%Z with (q + 2 * N)%Z by lia.
      replace (4 * q + 4)%Z with (4 * (q + 1))%Z by lia.
      apply IH; [lia | lia | apply loop_step; [lia | done]].
    + by replace N with q by lia.
Qed.

Lemma loop_inv_init : loop_inv 0 (Float32Array.create (3 * side * side)).
Proof.
  split.
  - rewrite Float32Array.length_create by lia. lia.
  - intros k Hk. rewrite Float32Array.zlookup_create by lia.
    destruct (Z.ltb_spec (k mod N) 0); [|done].
    pose proof (Z.mod_pos_bound k N N_pos). lia.
Qed.

Lemma loop_inv_final input : loop_inv N input → input = planar_ref side data.
Proof.
  intros [Hlen Hinv]. apply list_eq_zlookup.
  - unfold planar_ref. rewrite length_fmap_seqZ. lia.
  - intros k Hk. rewrite Hinv by lia. unfold planar_ref.
    rewrite zlookup_fmap_seqZ by lia.
    destruct (Z.ltb_spec (k mod N) N); [done|].
    pose proof (Z.mod_pos_bound k N N_pos). lia.
Qed.

(** Every fuel that covers the [side * side] iterations gives the
    planar layout. *)
Lemma pixel_loop_planar fuel :
  (Z.to_nat N ≤ fuel)%nat →
  pixel_loop side data fuel 0 (Float32Array.create (3 * side * side)) = planar_ref side data.
Proof.
  intros Hfuel. apply loop_inv_final.
  pose proof (pixel_loop_inv fuel 0 _ ltac:(lia) ltac:(lia) loop_inv_init) as H.
  by rewrite Z.mul_0_r in H.
Qed.

Lemma preprocess_pixels_planar : preprocess_pixels side data = planar_ref side data.
Proof. apply pixel_loop_planar. lia. Qed.

End Loop.

(** ** The tensor *)

Section Tensor.
Context `{CanvasLaws Image}.

Lemma length_planar_ref side data :
  Z.of_nat (length (planar_ref side data)) = (3 * side * side)%Z ∨ (3 * side * side < 0)%Z.
Proof. unfold planar_ref. rewrite length_fmap_seqZ. lia. Qed.

Theorem preprocess_side_tensor side (image : Image) :
  (0 < side)%Z →
  preprocess_side side image =
    Ok (mkTensor "float32" (planar_ref side (canvas_pixels image side side)) [1; 3; side; side]%Z).
Proof.
  intros Hside. unfold preprocess_side, ort_Tensor.
  assert (Z.of_nat (length (canvas_pixels image side side)) = 4 * (side * side))%Z as Hlen
    by (rewrite canvas_pixels_length; lia).
  rewrite preprocess_pixels_planar by done.
  rewrite decide_True; [done|].
  destruct (length_planar_ref side (canvas_pixels image side side)); simpl; lia.
Qed.
End Tensor.

(** ** The values *)

(** The byte [v] as the script stores it: [Math.fround(v / 255.0)]. *)
Definition stored_byte (v : Z) : number := fround (normalize (Some v)).

Definition in_unit_interval (x : number) : Prop :=
  ∃ q, to_Q x = Some q ∧ (0 <= q <= 1)%Q.

Definition in_unit_interval_b (x : number) : bool :=
  match to_Q x with Some q => Qle_bool 0%Q q && Qle_bool q 1%Q | None => false end.

Lemma in_unit_interval_b_spec x : in_unit_interval_b x = true → in_unit_interval x.
Proof.
  unfold in_unit_interval_b. destruct (to_Q x) as [q|] eqn:E; [|done].
  rewrite andb_true_iff, !Qle_bool_iff. intros [H1 H2]. exists q. split; [done | split; done].
Qed.

Lemma stored_byte_unit v : (0 ≤ v ≤ 255)%Z → in_unit_interval (stored_byte v).
Proof.
  intros Hv. apply in_unit_interval_b_spec.
  revert v Hv. apply (forall_bytes_spec (λ v, in_unit_interval_b (stored_byte v))).
  vm_compute. reflexivity.
Qed.

(** A byte read inside the data is a byte of the canvas. *)
Lemma planar_value_byte side data k :
  (0 < side)%Z → Z.of_nat (length data) = (4 * side * side)%Z →
  Forall (λ v, 0 ≤ v ≤ 255)%Z data → (0 ≤ k < 3 * side * side)%Z →
  ∃ v, (0 ≤ v ≤ 255)%Z ∧ planar_value side data k = stored_byte v.
Proof.
  intros Hside Hlen Hbytes Hk.
  destruct (plane_decomp (side * side) ltac:(lia) k ltac:(lia)) as (_ & Hm & Hc).
  destruct (zlookup_lt data (4 * (k mod (side * side)) + k / (side * side))) as [v Hv]; [lia|].
  exists v. split.
  - unfold zlookup in Hv. case_match; [|done].
    eapply Forall_lookup_1 in Hbytes; [exact Hbytes | exact Hv].
  - unfold planar_value. by rewrite Hv.
Qed.

(** ** A uniformly coloured opaque image

    Drawn at any size, every pixel of the canvas has the image's colour
    and alpha 255.  It satisfies [CanvasLaws] and serves the concrete
    instances of the theorems. *)
Record SolidImage := mkSolid { solid_r : Z; solid_g : Z; solid_b : Z }.

(** A [Uint8ClampedArray] store clamps to 0 .. 255. *)
Definition clamp_byte (v : Z) : Z := Z.max 0 (Z.min 255 v).

Definition solid_pixels (n : nat) (rgba : list Z) : list Z := concat (replicate n rgba).

#[export] Instance solid_canvas : Canvas SolidImage :=
  λ img w h, solid_pixels (Z.to_nat (w * h))
               [clamp_byte (solid_r img); clamp_byte (solid_g img); clamp_byte (solid_b img); 255%Z].

#[export] Instance solid_canvas_laws : CanvasLaws SolidImage.
Proof.
  split.
  - intros w h img Hw Hh. unfold canvas_pixels, solid_canvas, solid_pixels.
    rewrite length_concat_replicate. simpl. lia.
  - intros w h img. unfold canvas_pixels, solid_canvas, solid_pixels.
    apply Forall_concat, Forall_replicate. unfold clamp_byte.
    repeat constructor; lia.
Qed.

Lemma solid_pixels_lookup n rgba p c :
  length rgba = 4 → (0 ≤ p < Z.of_nat n)%Z → (0 ≤ c < 4)%Z →
  (solid_pixels n rgba).[4 * p + c] = rgba.[c].
Proof.
  intros Hl Hp Hc. unfold zlookup.
  destruct (Z.leb_spec 0 (4 * p + c)), (Z.leb_spec 0 c); try lia.
  replace (Z.to_nat (4 * p + c)) with (length rgba * Z.to_nat p + Z.to_nat c) by lia.
  apply lookup_concat_replicate; lia.
Qed.

(** ** Properties of [preprocessImage] *)

(** [Math.fround(v / 255.0)] of a byte: exhaustive facts. *)
Lemma stored_byte_not_nan v : (0 ≤ v ≤ 255)%Z → not_nan (stored_byte v).
Proof.
  intros Hv. apply negb_true_iff. revert v Hv.
  apply (forall_bytes_spec (λ v, negb (is_nan (stored_byte v)))).
  vm_compute. reflexivity.
Qed.

(** A property of every stored byte holds of every value of the planar
    buffer of a canvas. *)
Lemma planar_ref_Forall `{CanvasLaws Image} (P : number → Prop) side (image : Image) :
  (0 < side)%Z → (∀ v, (0 ≤ v ≤ 255)%Z → P (stored_byte v)) →
  Forall P (planar_ref side (canvas_pixels image side side)).
Proof.
  intros Hside HP. unfold planar_ref. apply Forall_fmap, Forall_seqZ. intros k Hk. simpl.
  destruct (planar_value_byte side (canvas_pixels image side side) k) as (v & Hv & ->);
    [done | rewrite canvas_pixels_length; lia | apply canvas_pixels_bytes | lia |].
  by apply HP.
Qed.

(** C12: the tensor of [preprocessImage] has the declared shape and every
    value is a number in [0, 1]. *)
Theorem preprocess_side_bounds `{CanvasLaws Image} side (image : Image) :
  (0 < side)%Z →
  ∃ t, preprocess_side side image = Ok t ∧
       tensor_dims t = [1; 3; side; side]%Z ∧
       Z.of_nat (length (tensor_data t)) = (3 * side * side)%Z ∧
       Forall in_unit_interval (tensor_data t).
Proof.
  intros Hside. rewrite preprocess_side_tensor by done.
  eexists. split_and!; [done | done | |]; simpl.
  - destruct (length_planar_ref side (canvas_pixels image side side)); lia.
  - apply planar_ref_Forall; [done | apply stored_byte_unit].
Qed.

Lemma preprocess_side_bounds_witness :
  (0 < 1)%Z ∧
  ∃ t, preprocess_side 1 (mkSolid 300 0 (-5)) = Ok t ∧
       tensor_dims t = [1; 3; 1; 1]%Z ∧
       Z.of_nat (length (tensor_data t)) = (3 * 1 * 1)%Z ∧
       Forall in_unit_interval (tensor_data t).
Proof. split; [lia | apply (preprocess_side_bounds (Image := SolidImage)); lia]. Defined.

(** C1: [preprocessImage] returns, without throwing, a ['float32']
    tensor of dimensions [1, 3, 177, 177] whose data is the channel-planar
    layout of the canvas bytes: entry [c * 177 * 177 + p] is
    [Math.fround(data[4 * p + c] / 255)]. *)
Theorem preprocessImage_spec `{CanvasLaws Image} (image : Image) :
  preprocessImage image =
    Ok (mkTensor "float32" (planar_ref 177 (canvas_pixels image 177 177)) [1; 3; 177; 177]%Z).
Proof. apply preprocess_side_tensor. lia. Qed.

Lemma preprocessImage_spec_witness :
  preprocessImage (mkSolid 12 34 56) =
    Ok (mkTensor "float32" (planar_ref 177 (canvas_pixels (mkSolid 12 34 56) 177 177))
          [1; 3; 177; 177]%Z).
Proof. apply (preprocessImage_spec (Image := SolidImage)). Defined.

(** C13: the loop terminates: every fuel that covers the [side * side]
    iterations yields the same buffer, the planar layout. *)
Theorem pixel_loop_terminates side data fuel :
  (0 < side)%Z → Z.of_nat (length data) = (4 * side * side)%Z →
  (Z.to_nat (side * side) ≤ fuel)%nat →
  pixel_loop side data fuel 0 (Float32Array.create (3 * side * side)) = planar_ref side data.
Proof. intros Hside Hlen Hfuel. apply pixel_loop_planar; [done | lia | done]. Qed.

Lemma pixel_loop_terminates_witness :
  pixel_loop 1 [1; 2; 3; 4]%Z 7 0 (Float32Array.create 3) = planar_ref 1 [1; 2; 3; 4]%Z.
Proof. apply (pixel_loop_terminates 1 [1; 2; 3; 4]%Z 7); simpl; lia. Defined.

(** C17: the alpha bytes are ignored: two canvases that agree on every
    red, green and blue byte give the same buffer. *)
Theorem preprocess_pixels_alpha side data1 data2 :
  (0 < side)%Z →
  Z.of_nat (length data1) = (4 * side * side)%Z →
  Z.of_nat (length data2) = (4 * side * side)%Z →
  (∀ i, (i mod 4 ≠ 3)%Z → data1.[i] = data2.[i]) →
  preprocess_pixels side data1 = preprocess_pixels side data2.
Proof.
  intros Hside Hl1 Hl2 Hrgb.
  rewrite !preprocess_pixels_planar by (done || lia).
  unfold planar_ref. apply list_fmap_ext. intros n k Hk.
  apply lookup_seqZ in Hk as [-> Hn]. unfold planar_value.
  destruct (plane_decomp (side * side) ltac:(lia) (0 + Z.of_nat n) ltac:(lia)) as (_ & _ & Hc).
  rewrite Hrgb; [done|]. rewrite mod4_offset; lia.
Qed.

Lemma preprocess_pixels_alpha_witness :
  preprocess_pixels 1 [10; 20; 30; 0]%Z = preprocess_pixels 1 [10; 20; 30; 255]%Z.
Proof.
  apply preprocess_pixels_alpha; [lia | reflexivity | reflexivity |].
  intros i Hi. unfold zlookup. case_Zcmp; [|done].
  destruct (Z.to_nat i) as [|[|[|[|j]]]] eqn:E; simpl; try done.
  exfalso. apply Hi. replace i with 3%Z by lia. done.
Defined.

Lemma planar_ref_solid side rgba k :
  (0 < side)%Z → length rgba = 4 → (0 ≤ k < 3 * side * side)%Z →
  (planar_ref side (solid_pixels (Z.to_nat (side * side)) rgba)).[k] =
    Some (fround (normalize rgba.[k / (side * side)])).
Proof.
  intros Hside Hl Hk. unfold planar_ref. rewrite zlookup_fmap_seqZ by lia.
  unfold planar_value.
  destruct (plane_decomp (side * side) ltac:(lia) k ltac:(lia)) as (_ & Hm & Hc).
  rewrite solid_pixels_lookup; [done | done | lia | lia].
Qed.

(** C18: the normalisation round trip: multiplying the stored value of a
    byte [v] by 255 (in binary64, as JavaScript would) gives [v] within
    2^-17; the rounding to binary32 makes it exact only for 0 and 255. *)
Theorem stored_byte_roundtrip v :
  (0 ≤ v ≤ 255)%Z →
  (∃ q, to_Q (mul (stored_byte v) (of_Z 255)) = Some q ∧
        (Qabs (q - inject_Z v) <= 1 # 131072)%Q) ∧
  (strict_eq (mul (stored_byte v) (of_Z 255)) (of_Z v) = true ↔ v = 0%Z ∨ v = 255%Z).
Proof.
  intros Hv. split.
  - pose proof (forall_bytes_spec (λ v,
      match to_Q (mul (stored_byte v) (of_Z 255)) with
      | Some q => Qle_bool (Qabs (q - inject_Z v)) (1 # 131072)
      | None => false
      end) ltac:(vm_compute; reflexivity) v Hv) as H. cbv beta in H.
    destruct (to_Q _) as [q|]; [|done]. exists q. split; [done|]. by apply Qle_bool_iff.
  - pose proof (forall_bytes_spec (λ v,
      Bool.eqb (strict_eq (mul (stored_byte v) (of_Z 255)) (of_Z v)) ((v =? 0) || (v =? 255))%Z)
      ltac:(vm_compute; reflexivity) v Hv) as H. cbv beta in H.
    apply Bool.eqb_prop in H. rewrite H, orb_true_iff, !Z.eqb_eq. done.
Qed.

Lemma stored_byte_roundtrip_witness :
  (0 ≤ 128 ≤ 255)%Z ∧
  (∃ q, to_Q (mul (stored_byte 128) (of_Z 255)) = Some q ∧
        (Qabs (q - inject_Z 128) <= 1 # 131072)%Q) ∧
  (strict_eq (mul (stored_byte 128) (of_Z 255)) (of_Z 128) = true ↔ 128%Z = 0%Z ∨ 128%Z = 255%Z).
Proof. split; [lia | apply stored_byte_roundtrip; lia]. Defined.

End Preprocess.
