(* ===== verification/Ranking.v ===== *)
(** * Ranking and rendering of the probabilities (src/script.js, lines 83-110)

    After [model.run], the script takes the output data [probabilities]
    (a [Float32Array]), computes
    [maxIndex = probabilities.indexOf(Math.max(...probabilities))],
    clears the results element, appends one row per probability (the
    upper-cased class name at the same index and [(prob * 100).toFixed(2)]
    percent), then appends the "Most Likely Class" line for [maxIndex].
    A class name read outside the ten labels is [undefined], and calling
    [toUpperCase] on it throws a TypeError.

    The results element is modelled by its content, a list of [fragment]s
    ([innerHTML = ''] is the empty list, [innerHTML += ...] appends); the
    statements run in the state-and-exception monad [st] of the prelude,
    so the rows written before a TypeError stay until the caller's
    [catch] replaces them.  [toUpperCase] is modelled on ASCII, which
    covers the ten constant labels.

    The abstract contract of the specification, [rank_spec] (pairs in
    label order and the first arg-max, or a label-mismatch error), is
    refined by [show_results] when there are ten NaN-free probabilities;
    the theorems also give the first-arg-max property of [maxIndex], the
    TypeError paths (NaN, empty output, more than ten values) and the
    silent truncation of a shorter output. *)

From stdpp Require Import base list strings.
From Stdlib Require Import ZArith Ascii SpecFloat Lia.
From S2P Require Import Prelude JsNumber TypedArray.

Module Ranking.
Import Number.

(** ** The results element *)

Inductive fragment : Type :=
  (** [<div class="result"><span>LABEL</span> ... width: P% ... <span>P%</span></div>] *)
  | ResultRow (label : string) (percent : string)
  (** [<h3>Most Likely Class:</h3><p>LABEL with P%</p>] *)
  | MostLikely (label : string) (percent : string)
  (** [<p>text</p>] *)
  | Message (text : string).

#[export] Instance fragment_eq_dec : EqDecision fragment.
Proof. solve_decision. Defined.

(** ** [String.prototype.toUpperCase] on ASCII *)

Definition ascii_upper (c : ascii) : ascii :=
  let n := nat_of_ascii c in
  if (97 <=? n) && (n <=? 122) then ascii_of_nat (n - 32) else c.

Fixpoint toUpperCase (s : string) : string :=
  match s with
  | EmptyString => EmptyString
  | String c s' => String (ascii_upper c) (toUpperCase s')
  end.

(** ** The statements of lines 83-110 *)

Definition classNames : list string :=
  ["anggur"; "apel"; "belimbing"; "jeruk"; "kiwi";
   "mangga"; "nanas"; "pisang"; "semangka"; "stroberi"].

(** [classNames[index].toUpperCase()] *)
Definition upper_label (names : list string) (index : Z) : exc string :=
  match names.[index] with
  | Some n => Ok (toUpperCase n)
  | None => Throw (TypeError "Cannot read properties of undefined (reading 'toUpperCase')")
  end.

(** [(prob * 100).toFixed(2)] *)
Definition percent (prob : number) : string :=
  toFixed 2 (mul prob (of_Z 100)).

(** [probabilities[i]], [undefined] read as a number is NaN. *)
Definition number_at (probabilities : list number) (i : Z) : number :=
  match probabilities.[i] with Some p => p | None => NaN end.

(** [probabilities.indexOf(Math.max(...probabilities))] *)
Definition maxIndex (probabilities : list number) : Z :=
  Float32Array.indexOf probabilities (Math_max probabilities).

Section Render.

(** [probabilities.forEach((prob, index) => { resultsDiv.innerHTML += ... })] *)
Fixpoint render_rows (names : list string) (probs : list number) (index : Z)
    : st (list fragment) unit :=
  match probs with
  | [] => mret ()
  | prob :: probs' =>
      label ← st_lift (upper_label names index);
      st_modify (λ html, html ++ [ResultRow label (percent prob)]) ;;
      render_rows names probs' (index + 1)
  end.

(** Lines 90-110. *)
Definition show_results (names : list string) (probabilities : list number)
    : st (list fragment) unit :=
  let mi := maxIndex probabilities in
  st_put [] ;;
  render_rows names probabilities 0 ;;
  label ← st_lift (upper_label names mi);
  st_modify (λ html, html ++ [MostLikely label (percent (number_at probabilities mi))]).
End Render.

(** ** The arg-max *)

(** Index [i] holds a maximal value and every earlier value is smaller:
    the first maximum. *)
Definition first_max (l : list number) (i : nat) : Prop :=
  ∃ x, l !! i = Some x ∧ (∀ y, y ∈ l → lt x y = false) ∧
       (∀ j y, j < i → l !! j = Some y → lt y x = true).

Lemma first_max_unique l i i' : first_max l i → first_max l i' → i = i'.
Proof.
  intros (x & Hx & Hmax & Hbefore) (x' & Hx' & Hmax' & Hbefore').
  destruct (lt_eq_lt_dec i i') as [[Hlt|Heq]|Hgt]; [|done|].
  - pose proof (Hbefore' i x Hlt Hx) as H1.
    rewrite (Hmax x') in H1; [done | by eapply list_elem_of_lookup_2].
  - pose proof (Hbefore i' x' Hgt Hx') as H1.
    rewrite (Hmax' x) in H1; [done | by eapply list_elem_of_lookup_2].
Qed.

Lemma maxIndex_exists l :
  Forall not_nan l → l ≠ [] → ∃ i, maxIndex l = Z.of_nat i ∧ first_max l i.
Proof.
  intros Hall Hne. unfold maxIndex.
  destruct (Math_max_spec l Hall Hne) as (Hmn & Hin & Hup).
  set (m := Math_max l) in *.
  destruct (list_find_elem_of (λ y, strict_eq m y = true) l m Hin) as [[i x] Hfind];
    [by apply strict_eq_refl|].
  apply list_find_Some in Hfind as (Hx & Heq & Hbefore).
  assert (not_nan x) as Hxn by (eapply Forall_lookup_1; eauto).
  apply strict_eq_key in Heq; [|done..].
  exists i. split.
  - apply (Float32Array.indexOf_first l m i x Hx); [by apply strict_eq_key|].
    intros j z Hj Hz. apply not_true_is_false. by apply (Hbefore j z Hz Hj).
  - exists x. split_and!; [done | |].
    + intros y Hy. assert (not_nan y) by (rewrite Forall_forall in Hall; by apply Hall).
      apply lt_false_key; [done..|]. rewrite <- Heq. by apply Hup.
    + intros j y Hj Hy. assert (not_nan y) by (eapply Forall_lookup_1; eauto).
      apply lt_key; [done..|]. rewrite <- Heq.
      destruct (Hup y ltac:(by eapply list_elem_of_lookup_2)) as [E|L]; [|done].
      exfalso. apply (Hbefore j y Hy Hj). by apply strict_eq_key.
Qed.

(** C2: [maxIndex] is the first arg-max: for a non-empty output without
    NaN, [probabilities.indexOf(Math.max(...probabilities))] is [i]
    exactly when [i] holds a maximal value and every earlier value is
    smaller (ties go to the lowest index). *)
Theorem maxIndex_spec l (i : nat) :
  Forall not_nan l → l ≠ [] → (maxIndex l = Z.of_nat i ↔ first_max l i).
Proof.
  intros Hall Hne. destruct (maxIndex_exists l Hall Hne) as (i0 & Hi0 & Hmax0).
  rewrite Hi0. split.
  - intros Hi. by replace i with i0 by lia.
  - intros Hmax. by rewrite (first_max_unique l i0 i).
Qed.

(** ** The rendering in closed form *)

Definition undefined_label_error : js_error :=
  TypeError "Cannot read properties of undefined (reading 'toUpperCase')".

Section RenderSpec.

(** The rows for labels and probabilities paired by index. *)
Definition result_rows (names : list string) (probs : list number) : list fragment :=
  zip_with (λ n p, ResultRow (toUpperCase n) (percent p)) names probs.

(** The loop appends a row per probability while a label exists at its
    index, and throws at the first index without a label. *)
Lemma render_rows_spec names probs index html :
  (0 ≤ index)%Z →
  let ns := drop (Z.to_nat index) names in
  render_rows names probs index html =
    if decide (length probs ≤ length ns) then (html ++ result_rows ns probs, Ok ())
    else (html ++ result_rows ns (take (length ns) probs), Throw undefined_label_error).
Proof.
  intros Hidx. cbv zeta.
  induction probs as [|p probs IH] in index, Hidx, html |- *.
  - rewrite decide_True by (simpl; lia). unfold result_rows. rewrite zip_with_nil_r, app_nil_r. done.
  - cbn [render_rows]. unfold mbind, st_bind, st_lift, upper_label, zlookup.
    destruct (Z.leb_spec 0 index); [|lia].
    destruct (names !! Z.to_nat index) as [n|] eqn:Hn.
    + rewrite (drop_S _ _ _ Hn). unfold st_modify.
      rewrite IH by lia.
      replace (Z.to_nat (index + 1)) with (S (Z.to_nat index)) by lia.
      cbn [length take result_rows zip_with]. rewrite <- app_assoc.
      destruct (decide (length probs ≤ length (drop (S (Z.to_nat index)) names)));
        rewrite ?decide_True, ?decide_False by lia; unfold result_rows; rewrite <- ?app_assoc; done.
    + rewrite drop_ge by (apply lookup_ge_None; done).
      rewrite decide_False by (simpl; lia). simpl. by rewrite app_nil_r.
Qed.

Lemma show_results_spec names probs html :
  show_results names probs html =
    let mi := maxIndex probs in
    if decide (length probs ≤ length names) then
      match names.[mi] with
      | Some n => (result_rows names probs ++ [MostLikely (toUpperCase n) (percent (number_at probs mi))], Ok ())
      | None => (result_rows names probs, Throw undefined_label_error)
      end
    else (result_rows names (take (length names) probs), Throw undefined_label_error).
Proof.
  unfold show_results. cbv zeta. unfold mbind, st_bind at 1. unfold st_put.
  unfold mbind, st_bind at 1. rewrite render_rows_spec by lia. simpl.
  destruct (decide _); [|done].
  unfold st_lift, upper_label. by destruct (names.[maxIndex probs]).
Qed.

(** A rendering that completes ends with the "Most Likely Class" line. *)
Lemma show_results_ok_last names probs html r u :
  show_results names probs html = (r, Ok u) → ∃ rows l x, r = rows ++ [MostLikely l x].
Proof.
  rewrite show_results_spec. cbv zeta.
  destruct (decide _); [destruct (names.[_])|]; intros Heq; simplify_eq; eauto.
Qed.
End RenderSpec.

(** ** The contract of the specification and the claims *)

(** [rank(probs, labels)] of the specification (section 4.3): the pairs
    in label order and the first arg-max; there is no result (the
    specification's LabelMismatchError) when the lengths differ. *)
Definition rank_result : Type := list (string * number) * (string * number).

Definition rank_spec (labels : list string) (probs : list number) (r : rank_result) : Prop :=
  length probs = length labels ∧ r.1 = zip labels probs ∧
  ∃ i, first_max probs i ∧ labels !! i = Some r.2.1 ∧ probs !! i = Some r.2.2.

(** The display of a ranking: a row per pair, then the top-1 line. *)
Definition rank_view (r : rank_result) : list fragment :=
  ((λ '(l, p), ResultRow (toUpperCase l) (percent p)) <$> r.1) ++
  [MostLikely (toUpperCase r.2.1) (percent r.2.2)].

(** The example of the specification (section 8): 0.6 at index 2 and 0.05
    elsewhere, as binary32 values. *)
Definition spec_example : list number :=
  let p005 := fround (div (of_Z 5) (of_Z 100)) in
  let p06 := fround (div (of_Z 6) (of_Z 10)) in
  [p005; p005; p06; p005; p005; p005; p005; p005; p005; p005].

Lemma maxIndex_spec_witness :
  Forall not_nan spec_example ∧ spec_example ≠ [] ∧
  (maxIndex spec_example = Z.of_nat 2 ↔ first_max spec_example 2).
Proof.
  assert (Forall not_nan spec_example) as Hall by (repeat constructor).
  split_and!; [done | done | apply maxIndex_spec; [done | done]].
Defined.

Section Claims.

Lemma maxIndex_lookup (names : list string) (probs : list number) :
  Forall not_nan probs → probs ≠ [] → length probs ≤ length names →
  ∃ i n x, maxIndex probs = Z.of_nat i ∧ first_max probs i ∧
           names !! i = Some n ∧ probs !! i = Some x.
Proof.
  intros Hall Hne Hlen. destruct (maxIndex_exists probs Hall Hne) as (i & Hi & Hmax).
  destruct Hmax as (x & Hx & Hrest).
  destruct (lookup_lt_is_Some_2 names i) as [n Hn];
    [apply lookup_lt_Some in Hx; lia|].
  exists i, n, x. split_and!; [done | by exists x | done | done].
Qed.

(** For as many NaN-free probabilities as labels, [show_results] renders
    exactly the view of a ranking of the contract and does not throw. *)
Lemma show_results_rank (names : list string) (probs : list number) html :
  Forall not_nan probs → length probs = length names → probs ≠ [] →
  ∃ r, rank_spec names probs r ∧ show_results names probs html = (rank_view r, Ok ()).
Proof.
  intros Hall Hlen Hne.
  destruct (maxIndex_lookup names probs Hall Hne ltac:(lia)) as (i & n & x & Hi & Hmax & Hn & Hx).
  exists (zip names probs, (n, x)). split.
  - split_and!; [done | done |]. exists i. done.
  - rewrite show_results_spec. cbv zeta. rewrite decide_True by lia.
    rewrite Hi, zlookup_nat, Hn. unfold number_at. rewrite zlookup_nat, Hx.
    unfold rank_view, result_rows. by rewrite zip_with_fmap_zip.
Qed.

(** A NaN in the output, or an empty output, makes [maxIndex] -1, and
    reading the label at -1 throws a TypeError; more probabilities than
    labels throw at the first index without a label. *)
Lemma show_results_throws (names : list string) (probs : list number) html :
  NaN ∈ probs ∨ probs = [] ∨ length names < length probs →
  (show_results names probs html).2 = Throw undefined_label_error.
Proof.
  intros Hbad. rewrite show_results_spec. cbv zeta.
  destruct (decide (length probs ≤ length names)) as [Hle|]; [|done].
  assert (maxIndex probs = (-1)%Z) as Hmi.
  { destruct Hbad as [Hnan|[->|Hgt]]; [|done|lia].
    unfold maxIndex. rewrite Math_max_nan by done. apply Float32Array.indexOf_NaN. }
  by rewrite Hmi, zlookup_neg by lia.
Qed.

(** C14: mismatched lengths.  The specification has no ranking (its
    LabelMismatchError), but the script renders a shorter output without
    error, with one row per probability (the labels past its length are
    dropped), and throws a TypeError on a longer output. *)
Theorem show_results_label_mismatch (probs : list number) html :
  Forall not_nan probs → probs ≠ [] → length probs ≠ length classNames →
  (¬ ∃ r, rank_spec classNames probs r) ∧
  (length probs < length classNames →
     ∃ i n, first_max probs i ∧ classNames !! i = Some n ∧
       show_results classNames probs html =
         (result_rows classNames probs ++
            [MostLikely (toUpperCase n) (percent (number_at probs (Z.of_nat i)))], Ok ())) ∧
  (length classNames < length probs →
     (show_results classNames probs html).2 = Throw undefined_label_error).
Proof.
  intros Hall Hne Hlen. split_and!.
  - intros (r & Hr & _). done.
  - intros Hlt.
    destruct (maxIndex_lookup classNames probs Hall Hne ltac:(lia)) as (i & n & x & Hi & Hmax & Hn & Hx).
    exists i, n. split_and!; [done | done |].
    rewrite show_results_spec. cbv zeta. rewrite decide_True by lia.
    by rewrite Hi, zlookup_nat, Hn.
  - intros Hgt. rewrite show_results_spec. cbv zeta. by rewrite decide_False by lia.
Qed.
End Claims.

Lemma show_results_label_mismatch_witness :
  let probs := [of_Z 0; of_Z 1; of_Z 0] in
  Forall not_nan probs ∧ probs ≠ [] ∧ length probs ≠ length classNames ∧
  ((¬ ∃ r, rank_spec classNames probs r) ∧
   (length probs < length classNames →
      ∃ i n, first_max probs i ∧ classNames !! i = Some n ∧
        show_results classNames probs [] =
          (result_rows classNames probs ++
             [MostLikely (toUpperCase n) (percent (number_at probs (Z.of_nat i)))], Ok ())) ∧
   (length classNames < length probs →
      (show_results classNames probs []).2 = Throw undefined_label_error)).
Proof.
  cbv zeta. assert (Forall not_nan [of_Z 0; of_Z 1; of_Z 0]) as Hall by (repeat constructor).
  split_and!; [done | done | done | ..];
    apply (show_results_label_mismatch [of_Z 0; of_Z 1; of_Z 0] []); done.
Defined.

End Ranking.
