(* ===== verification/Pipeline.v ===== *)
(** * The page: [loadModel], [uploadAndClassifyImage] and its callbacks

    src/script.js, lines 9-22 and 51-125.  The page keeps the global
    [model] (undefined until [ort.InferenceSession.create] resolves), the
    [src] of the uploaded image, the content of the results element, the
    console, and the asynchronous callbacks still to run: the model load,
    a [FileReader]'s [onloadend], an [Image]'s [onload], and the
    continuation after [await model.run(feeds)].  A [step] runs one
    pending callback, in any order, or a new [change] event, so every
    interleaving of the browser's event loop is a sequence of steps.

    The browser and the engine are parameters: [readAsDataURL] (the
    reader's result, [None] for [null]), [decodeImage] (an [Image] when the
    source decodes; without one [onload] never fires), the canvas of
    [Preprocess], and the [Session] record (its declared names and its
    [run]).  The theorems give the handlers' behaviour on every branch,
    invariants of the reachable pages by induction on [rtc step] (the
    model is written once; no inference is started without a model; the
    results element never shows a partial rendering), the refinement of
    the classification contract, and the race between two uploads.  A
    concrete browser and engine at the end ([demo_read], [demo_decode],
    [demo_session]) instantiate the theorems and show that the race is
    visible: a blue preview beside the red image's classification. *)

From stdpp Require Import base list strings gmap.
From Stdlib Require Import ZArith SpecFloat Lia.
From S2P Require Import Prelude JsNumber TypedArray Preprocess Ranking.

Module Pipeline.
Import Number Preprocess Ranking.

(** ** The inference session (onnxruntime-web) *)

(** [model.inputNames], [model.outputNames] and [model.run(feeds)]: a
    promise that resolves to the output tensors by name, or rejects. *)
Record Session := mkSession {
  inputNames : list string;
  outputNames : list string;
  session_run : gmap string Tensor → exc (gmap string Tensor)
}.

(** [obj[names[0]]]: the key is the string "undefined" when the list is empty. *)
Definition first_name (names : list string) : string :=
  match names with n :: _ => n | [] => "undefined" end.

(** [console.log(msg)], [console.log(msg, names)] and [console.error(msg, error)]. *)
Inductive log_entry : Type :=
  | ConsoleLog (msg : string)
  | ConsoleLogNames (msg : string) (names : list string)
  | ConsoleError (msg : string) (err : js_error).

Section Page.
Context {File Image : Type} `{Canvas Image}.
Context (readAsDataURL : File → option string).
Context (decodeImage : string → option Image).

(** ** The page state *)

Inductive task : Type :=
  | TLoadModel                                      (* await InferenceSession.create *)
  | TReaderLoadEnd (result : option string)         (* reader.onloadend *)
  | TImageOnload (image : Image)                    (* image.onload *)
  | TRunSettled (outcome : exc (gmap string Tensor)). (* await model.run(feeds) *)

Record page := mkPage {
  model : option Session;
  uploaded_src : option string;
  results : list fragment;
  console : list log_entry;
  pending : list task
}.

Definition set_model (s : Session) (p : page) : page :=
  mkPage (Some s) (uploaded_src p) (results p) (console p) (pending p).
Definition set_src (src : string) (p : page) : page :=
  mkPage (model p) (Some src) (results p) (console p) (pending p).
Definition set_results (r : list fragment) (p : page) : page :=
  mkPage (model p) (uploaded_src p) r (console p) (pending p).
Definition log (e : log_entry) (p : page) : page :=
  mkPage (model p) (uploaded_src p) (results p) (console p ++ [e]) (pending p).
Definition add_task (t : task) (p : page) : page :=
  mkPage (model p) (uploaded_src p) (results p) (console p) (pending p ++ [t]).
Definition remove_task (i : nat) (p : page) : page :=
  mkPage (model p) (uploaded_src p) (results p) (console p) (delete i (pending p)).

(** Statements on the results element, inside a page computation. *)
Definition on_results {A} (m : st (list fragment) A) : st page A :=
  λ p, let '(r, a) := m (results p) in (set_results r p, a).

Definition st_get_model : st page (option Session) := λ p, (p, Ok (model p)).

(** ** loadModel (lines 13-22, called at line 122) *)

Definition init_page : page := mkPage None None [] [] [TLoadModel].

Definition on_model_loaded (s : Session) (p : page) : page :=
  log (ConsoleLogNames "Output Names:" (outputNames s))
    (log (ConsoleLogNames "Input Names:" (inputNames s))
      (log (ConsoleLog "Model loaded successfully") (set_model s p))).

Definition on_model_error (e : js_error) (p : page) : page :=
  log (ConsoleError "Error loading model:" e) p.

(** ** uploadAndClassifyImage (lines 52-119) *)

Definition please_upload : string := "Please upload an image to classify.".
Definition classifying : string := "Classifying... Please wait.".
Definition classify_failed : string :=
  "Error classifying image. Please check the console for details.".

(** The [change] event with the input's files: without a file, a message;
    otherwise [reader.readAsDataURL(file)], whose [onloadend] is pending. *)
Definition uploadAndClassifyImage (files : list File) (p : page) : page :=
  match files with
  | [] => set_results [Message please_upload] p
  | file :: _ => add_task (TReaderLoadEnd (readAsDataURL file)) p
  end.

(** [uploadedImage.src = reader.result; image.src = reader.result]: a
    [null] result is the string "null". *)
Definition src_of (result : option string) : string :=
  match result with Some url => url | None => "null" end.

Definition onloadend (result : option string) (p : page) : page :=
  let src := src_of result in
  let p := set_src src p in
  match decodeImage src with
  | Some image => add_task (TImageOnload image) p
  | None => p
  end.

(** [catch (error) { console.error(...); resultsDiv.innerHTML = ... }] *)
Definition classify_error (e : js_error) : st page unit :=
  st_modify (λ p, set_results [Message classify_failed]
                   (log (ConsoleError "Error classifying image:" e) p)).

(** [image.onload] up to [await model.run(feeds)] (lines 69-81). *)
Definition onload_body (image : Image) : st page unit :=
  tensor ← st_lift (preprocessImage image);
  m ← st_get_model;
  match m with
  | None => st_lift (Throw (Error "Model is not loaded. Please refresh the page."))
  | Some s =>
      let feeds := {[ first_name (inputNames s) := tensor ]} in
      st_modify (add_task (TRunSettled (session_run s feeds)))
  end.

Definition image_onload (image : Image) : st page unit :=
  st_modify (set_results [Message classifying]) ;;
  try! onload_body image catch! classify_error.

(** After [await model.run(feeds)] (lines 81-110), in the same [try]. *)
Definition after_run_body (outcome : exc (gmap string Tensor)) : st page unit :=
  output ← st_lift outcome;
  m ← st_get_model;
  s ← st_lift (match m with
               | Some s => Ok s
               | None => Throw (TypeError "Cannot read properties of undefined (reading 'outputNames')")
               end);
  t ← st_lift (match output !! first_name (outputNames s) with
               | Some t => Ok t
               | None => Throw (TypeError "Cannot read properties of undefined (reading 'data')")
               end);
  on_results (show_results classNames (tensor_data t)).

Definition after_run (outcome : exc (gmap string Tensor)) : st page unit :=
  try! after_run_body outcome catch! classify_error.

(** ** The event loop *)

(** A pending callback runs: the model load settles, a reader's
    [onloadend], an image's [onload], or the continuation of a run. *)
Inductive callback : page → page → Prop :=
  | cb_model_loaded p i s :
      pending p !! i = Some TLoadModel → callback p (on_model_loaded s (remove_task i p))
  | cb_model_error p i e :
      pending p !! i = Some TLoadModel → callback p (on_model_error e (remove_task i p))
  | cb_reader p i r :
      pending p !! i = Some (TReaderLoadEnd r) → callback p (onloadend r (remove_task i p))
  | cb_image p i image :
      pending p !! i = Some (TImageOnload image) → callback p (fst (image_onload image (remove_task i p)))
  | cb_run p i o :
      pending p !! i = Some (TRunSettled o) → callback p (fst (after_run o (remove_task i p))).

(** One turn of the event loop: a pending callback, or a new [change]
    event of the file input (line 125). *)
Inductive step : page → page → Prop :=
  | step_callback p q : callback p q → step p q
  | step_change p files : step p (uploadAndClassifyImage files p).

Definition reachable (p : page) : Prop := rtc step init_page p.

End Page.

(** ** The handlers, branch by branch *)

(** Unfold a handler and split all its branches. *)
Ltac run_handler :=
  unfold image_onload, onload_body, after_run, after_run_body, st_catch, st_lift,
    st_get_model, on_results, classify_error, st_modify, mbind, st_bind;
  repeat (case_match; simplify_eq/=).


Section Handlers.
Context {File Image : Type} `{CanvasLaws Image}.
Context (readAsDataURL : File → option string).
Context (decodeImage : string → option Image).

(** The outcome of [model.run(feeds)] for the tensor of [image]. *)
Definition run_outcome (s : Session) (image : Image) : exc (gmap string Tensor) :=
  match preprocessImage image with
  | Ok tensor => session_run s {[ first_name (inputNames s) := tensor ]}
  | Throw e => Throw e
  end.

(** What the continuation of a run shows, on a page whose model is [s]. *)
Definition rendered (s : Session) (o : exc (gmap string Tensor)) : list fragment :=
  results (fst (after_run o (mkPage (Some s) None [] [] ([] : list (task (Image := Image)))))).

Lemma after_run_frame o (p : page (Image := Image)) :
  let q := fst (after_run o p) in
  model q = model p ∧ uploaded_src q = uploaded_src p ∧ pending q = pending p.
Proof. cbv zeta. run_handler; done. Qed.

Lemma show_results_reset names probs h1 h2 :
  show_results names probs h1 = show_results names probs h2.
Proof. reflexivity. Qed.

Lemma after_run_results o (p : page (Image := Image)) s :
  model p = Some s → results (fst (after_run o p)) = rendered s o.
Proof.
  intros Hm. unfold rendered. run_handler; try done;
    try rewrite (show_results_reset _ _ (results p) []) in *; congruence.
Qed.

(** Without a model: the error is caught, the generic message shown, the
    error logged, and no inference is started. *)
Lemma image_onload_no_model image (p : page (Image := Image)) :
  model p = None →
  image_onload image p =
    (set_results [Message classify_failed]
       (log (ConsoleError "Error classifying image:"
               (Error "Model is not loaded. Please refresh the page."))
          (set_results [Message classifying] p)), Ok ()).
Proof.
  intros Hm. unfold image_onload, onload_body, preprocessImage. rewrite preprocess_side_tensor by lia. run_handler; done.
Qed.

(** With a model: "Classifying..." is shown and the run is pending. *)
Lemma image_onload_model image (p : page (Image := Image)) s :
  model p = Some s →
  image_onload image p =
    (add_task (TRunSettled (run_outcome s image)) (set_results [Message classifying] p), Ok ()).
Proof.
  intros Hm. unfold run_outcome, image_onload, onload_body, preprocessImage. rewrite !preprocess_side_tensor by lia. run_handler; done.
Qed.

End Handlers.

(** ** Invariants of the reachable pages *)

Definition is_load {Image} (t : task (Image := Image)) : bool :=
  match t with TLoadModel => true | _ => false end.
Definition is_run {Image} (t : task (Image := Image)) : bool :=
  match t with TRunSettled _ => true | _ => false end.
Definition loads {Image} (l : list (task (Image := Image))) : nat :=
  length (filter (λ t, is_load t = true) l).

(** The results element shows nothing yet, one of the three messages, or
    a complete rendering of some output: never a partial one. *)
Definition results_wf (r : list fragment) : Prop :=
  r = [] ∨ r = [Message please_upload] ∨ r = [Message classifying] ∨
  r = [Message classify_failed] ∨ ∃ probs, show_results classNames probs [] = (r, Ok ()).

Definition page_inv {Image} (p : page (Image := Image)) : Prop :=
  loads (pending p) ≤ 1 ∧
  (loads (pending p) ≠ 0 → model p = None) ∧
  (model p = None → Forall (λ t, is_run t = false) (pending p)) ∧
  results_wf (results p).

Lemma loads_app {Image} (l k : list (task (Image := Image))) : loads (l ++ k) = loads l + loads k.
Proof. unfold loads. by rewrite filter_app, length_app. Qed.

Lemma loads_snoc {Image} (l : list (task (Image := Image))) t :
  is_load t = false → loads (l ++ [t]) = loads l.
Proof. intros Ht. rewrite loads_app. unfold loads at 2. simpl. rewrite filter_cons_False; simpl; [lia|]. congruence. Qed.

Lemma loads_delete {Image} (l : list (task (Image := Image))) i t :
  l !! i = Some t → loads l = loads (delete i l) + (if is_load t then 1 else 0).
Proof.
  unfold loads. induction l as [|x l IH] in i |- *; intros Hi; [done|].
  destruct i as [|i]; simpl in Hi |- *.
  - injection Hi as ->. rewrite filter_cons. case_decide; destruct (is_load t); simpl; done || lia.
  - rewrite !filter_cons. case_decide; simpl; rewrite (IH i Hi); lia.
Qed.

Section Invariants.
Context {File Image : Type} `{CanvasLaws Image}.
Context (readAsDataURL : File → option string).
Context (decodeImage : string → option Image).

Lemma after_run_results_wf o (p : page (Image := Image)) : results_wf (results (fst (after_run o p))).
Proof.
  unfold results_wf. run_handler; try (do 3 right; by left).
  do 4 right. eexists. rewrite (show_results_reset _ _ _ (results p)).
  match goal with Hs : show_results _ _ _ = (_, Ok ?u) |- _ => destruct u; exact Hs end.
Qed.

Lemma step_inv (p q : page (Image := Image)) :
  step readAsDataURL decodeImage p q → page_inv p → page_inv q.
Proof.
  intros Hstep (Hl1 & Hl0 & Hrun & Hwf). unfold page_inv.
  destruct Hstep as [? ? [p i s Hi|p i e Hi|p i r Hi|p i image Hi|p i o Hi]|p files].
  - pose proof (loads_delete _ _ _ Hi) as Hd. cbn -[loads] in Hd |- *. split_and!; [lia | lia | done | done].
  - pose proof (loads_delete _ _ _ Hi) as Hd. cbn -[loads] in Hd |- *.
    split_and!; [lia | lia | intros Hm; apply Forall_delete, Hrun, Hm | done].
  - pose proof (loads_delete _ _ _ Hi) as Hd. cbn -[loads] in Hd.
    unfold onloadend. destruct (decodeImage (src_of r)); cbn -[loads]; rewrite ?loads_snoc by done;
      (split_and!; [lia | intros; apply Hl0; lia | | done]);
      intros Hm; [apply Forall_app; split; [|by repeat constructor] | ];
      apply Forall_delete, Hrun, Hm.
  - pose proof (loads_delete _ _ _ Hi) as Hd. cbn -[loads] in Hd.
    destruct (model p) as [s|] eqn:Hm.
    + rewrite (image_onload_model image _ s) by done. cbn -[loads]. rewrite loads_snoc by done.
      split_and!; [lia | | intros; congruence | by do 2 right; left].
      intros; exfalso. assert (Some s = None) by (apply Hl0; lia). done.
    + rewrite image_onload_no_model by done. cbn -[loads].
      split_and!; [lia | done | intros _; by apply Forall_delete, Hrun | by do 3 right; left].
  - pose proof (loads_delete _ _ _ Hi) as Hd.
    destruct (after_run_frame o (remove_task i p)) as (Hm & _ & Hp).
    rewrite Hm, Hp. cbn -[loads] in Hd |- *.
    split_and!; [lia | intros; apply Hl0; lia | | apply after_run_results_wf].
    intros Hn. apply Forall_delete, Hrun, Hn.
  - destruct files as [|f files]; cbn -[loads]; [split_and!; auto; by right; left|].
    rewrite loads_snoc by done. split_and!; [lia | intros; apply Hl0; lia | | done].
    intros Hm. apply Forall_app; auto.
Qed.

Lemma init_inv : page_inv (init_page (Image := Image)).
Proof. unfold page_inv, init_page. cbn -[loads]. split_and!; [by compute | done | intros; by repeat constructor | by left]. Qed.

Lemma rtc_step_inv (p q : page (Image := Image)) :
  rtc (step readAsDataURL decodeImage) p q → page_inv p → page_inv q.
Proof. induction 1; eauto using step_inv. Qed.

Lemma reachable_inv (p : page (Image := Image)) :
  reachable readAsDataURL decodeImage p → page_inv p.
Proof. intros Hr. eapply rtc_step_inv; [exact Hr | apply init_inv]. Qed.

End Invariants.

(** ** Schedules of callbacks *)

Section Schedules.
Context {File Image : Type} `{CanvasLaws Image}.
Context (readAsDataURL : File → option string).
Context (decodeImage : string → option Image).

Lemma step_reader_decoded (p : page (Image := Image)) i u image :
  pending p !! i = Some (TReaderLoadEnd (Some u)) → decodeImage u = Some image →
  step readAsDataURL decodeImage p (add_task (TImageOnload image) (set_src u (remove_task i p))).
Proof.
  intros Hi Hd. replace (add_task _ _) with (onloadend decodeImage (Some u) (remove_task i p)).
  - by apply step_callback; constructor.
  - unfold onloadend. cbn. by rewrite Hd.
Qed.

Lemma step_image_model (p : page (Image := Image)) i image s :
  model p = Some s → pending p !! i = Some (TImageOnload image) →
  step readAsDataURL decodeImage p
    (add_task (TRunSettled (run_outcome s image)) (set_results [Message classifying] (remove_task i p))).
Proof.
  intros Hm Hi. replace (add_task _ _) with (fst (image_onload image (remove_task i p))).
  - by apply step_callback; constructor.
  - by rewrite (image_onload_model image _ s).
Qed.

(** A settled run, wherever it is in the pending list, can complete now;
    what it shows depends only on its outcome and the model. *)
Lemma finish_run (q : page (Image := Image)) s l k o :
  model q = Some s → pending q = l ++ TRunSettled o :: k →
  ∃ q', step readAsDataURL decodeImage q q' ∧ model q' = Some s ∧ pending q' = l ++ k ∧
        uploaded_src q' = uploaded_src q ∧ results q' = rendered (Image := Image) s o.
Proof.
  intros Hm Hp. exists (fst (after_run o (remove_task (length l) q))).
  destruct (after_run_frame o (remove_task (length l) q)) as (Hm1 & Hs1 & Hp1).
  split_and!.
  - apply step_callback, cb_run. rewrite Hp. by apply list_lookup_middle.
  - by rewrite Hm1.
  - rewrite Hp1. cbn. rewrite Hp. apply delete_middle.
  - by rewrite Hs1.
  - by apply after_run_results.
Qed.

(** The pending list as [pending p ++ [...]], with the removed tasks gone. *)
Ltac norm_pending :=
  cbn [pending model uploaded_src add_task set_src set_results remove_task log
       uploadAndClassifyImage];
  repeat first [ rewrite <- app_assoc | rewrite delete_middle
               | rewrite delete_app_length | rewrite delete_cons_0 | rewrite delete_cons_S
               | progress (cbn [app]) ].

(** After the user selects [f1] and then [f2], the callbacks can run so
    that both images are decoded (the second one shown) and both runs are
    pending, in the order second, first. *)
Lemma two_uploads_pending (p : page (Image := Image)) s f1 f2 u1 u2 img1 img2 :
  model p = Some s → readAsDataURL f1 = Some u1 → readAsDataURL f2 = Some u2 →
  decodeImage u1 = Some img1 → decodeImage u2 = Some img2 →
  ∃ q, rtc (step readAsDataURL decodeImage)
         (uploadAndClassifyImage readAsDataURL [f2] (uploadAndClassifyImage readAsDataURL [f1] p)) q ∧
       model q = Some s ∧ uploaded_src q = Some u2 ∧
       pending q = pending p ++ [TRunSettled (run_outcome s img2); TRunSettled (run_outcome s img1)].
Proof.
  intros Hm Hr1 Hr2 Hd1 Hd2.
  eexists. split_and!; [| | | ].
  - eapply rtc_l.
    { apply (step_reader_decoded _ (length (pending p)) u1 img1); [|done].
      norm_pending. rewrite Hr1. by apply list_lookup_middle. }
    eapply rtc_l.
    { apply (step_reader_decoded _ (length (pending p)) u2 img2); [|done].
      norm_pending. rewrite Hr2. by apply list_lookup_middle. }
    eapply rtc_l.
    { apply (step_image_model _ (length (pending p) + 1) img2 s); [done|].
      norm_pending. by rewrite lookup_app_length. }
    eapply rtc_l.
    { apply (step_image_model _ (length (pending p)) img1 s); [done|].
      norm_pending. by apply list_lookup_middle. }
    apply rtc_refl.
  - done.
  - done.
  - norm_pending. by rewrite ?Hr1, ?Hr2.
Qed.

End Schedules.

(** ** The properties of the page *)

Section Claims.
Context {File Image : Type} `{CanvasLaws Image}.
Context (readAsDataURL : File → option string).
Context (decodeImage : string → option Image).

Lemma step_keeps_model (p q : page (Image := Image)) s :
  page_inv p → model p = Some s → step readAsDataURL decodeImage p q → model q = Some s.
Proof.
  intros (_ & Hl0 & _ & _) Hm Hstep.
  destruct Hstep as [? ? [p i s' Hi|p i e Hi|p i r Hi|p i image Hi|p i o Hi]|p files].
  1,2: exfalso; pose proof (loads_delete _ _ _ Hi) as Hd; simpl in Hd;
       assert (model p = None) by (apply Hl0; lia); congruence.
  - unfold onloadend. by destruct (decodeImage (src_of r)).
  - by rewrite (image_onload_model image _ s).
  - by rewrite (proj1 (after_run_frame o _)).
  - by destruct files.
Qed.

(** C5: the model is written once: once a reachable page has a model,
    every page reachable from it has the same model (the load task is
    consumed exactly once, and no other handler assigns [model]). *)
Theorem model_written_once (p q : page (Image := Image)) s :
  reachable readAsDataURL decodeImage p → model p = Some s →
  rtc (step readAsDataURL decodeImage) p q → model q = Some s.
Proof.
  intros Hr Hm Hpq. pose proof (reachable_inv _ _ p Hr) as Hinv. clear Hr.
  induction Hpq as [|p p' q Hstep _ IH]; [done|].
  apply IH; [by eapply step_keeps_model | by eapply step_inv].
Qed.

(** C8: the results element of a reachable page is empty, one of the
    three messages, or the complete rendering of some output vector:
    never a partial rendering. *)
Theorem reachable_results_wf (p : page (Image := Image)) :
  reachable readAsDataURL decodeImage p → results_wf (results p).
Proof. intros Hr. apply (reachable_inv _ _ p Hr). Qed.

(** C15: [image.onload] without a model shows "Classifying...", then
    catches the thrown Error: the generic failure message replaces it,
    the error is logged, and nothing is left pending. *)
Theorem image_onload_without_model image (p : page (Image := Image)) :
  model p = None →
  let q := fst (image_onload image p) in
  results q = [Message classify_failed] ∧ pending q = pending p ∧ model q = None ∧
  console q = console p ++
    [ConsoleError "Error classifying image:" (Error "Model is not loaded. Please refresh the page.")].
Proof. intros Hm. cbv zeta. by rewrite image_onload_no_model. Qed.

(** C3: when [model.run] resolves with a finite output of one
    probability per class, the continuation implements the
    classification contract: it replaces the results element with the
    view of some ranking that satisfies [rank_spec]. *)
Theorem after_run_refines (p : page (Image := Image)) s output t :
  model p = Some s → output !! first_name (outputNames s) = Some t →
  Forall not_nan (tensor_data t) → length (tensor_data t) = length classNames →
  ∃ r, rank_spec classNames (tensor_data t) r ∧
       after_run (Ok output) p = (set_results (rank_view r) p, Ok ()).
Proof.
  intros Hm Ht Hnan Hlen.
  destruct (show_results_rank classNames (tensor_data t) (results p)) as (r & Hr & Hs);
    [done | done | intros Hn; by rewrite Hn in Hlen|].
  exists r. split; [done|]. run_handler; congruence.
Qed.

(** C10: the error paths of the continuation: a rejected [model.run], an
    output without the declared output name, or an output with a NaN,
    no element or more elements than labels all end in the generic
    message and a logged error, with the model and the pending tasks
    unchanged. *)
Theorem after_run_errors (p : page (Image := Image)) s o :
  model p = Some s →
  (∃ e, o = Throw e) ∨
  (∃ output, o = Ok output ∧ output !! first_name (outputNames s) = None) ∨
  (∃ output t, o = Ok output ∧ output !! first_name (outputNames s) = Some t ∧
     (NaN ∈ tensor_data t ∨ tensor_data t = [] ∨ length classNames < length (tensor_data t))) →
  let q := fst (after_run o p) in
  results q = [Message classify_failed] ∧ model q = Some s ∧ pending q = pending p ∧
  ∃ e, console q = console p ++ [ConsoleError "Error classifying image:" e].
Proof.
  intros Hm Hcase. cbv zeta.
  destruct Hcase as [[e ->]|[[output [-> Ht]]|(output & t & -> & Ht & Hbad)]].
  - eauto.
  - run_handler; eauto.
  - pose proof (show_results_throws classNames (tensor_data t) (results p) Hbad) as Hs.
    destruct (show_results _ _ _) as [r0 o0] eqn:Hsr. simpl in Hs. subst o0.
    run_handler; eauto; congruence.
Qed.

(** C16: a reader result that does not decode as an image: [onloadend]
    still sets the [src] of the preview, but [image.onload] never fires,
    so the page stays as it was ("Classifying..." never appears and no
    error is shown or logged). *)
Theorem reader_decode_failure (p : page (Image := Image)) i r :
  pending p !! i = Some (TReaderLoadEnd r) → decodeImage (src_of r) = None →
  let q := onloadend decodeImage r (remove_task i p) in
  step readAsDataURL decodeImage p q ∧ uploaded_src q = Some (src_of r) ∧
  results q = results p ∧ console q = console p ∧ model q = model p ∧
  pending q = delete i (pending p).
Proof.
  intros Hi Hd. cbv zeta. split; [by apply step_callback; constructor|].
  unfold onloadend. by rewrite Hd.
Qed.

(** C4: the race between two uploads.  After the user selects [f1]
    and then [f2] on a page with a model, the event loop can run the
    callbacks so that the preview shows the second image while the
    results element shows the classification of the first one: the
    continuation of the last [model.run] to settle wins, whichever image
    it belongs to.  Both final pages are reachable. *)
Theorem upload_race (p : page (Image := Image)) s f1 f2 u1 u2 img1 img2 :
  model p = Some s → readAsDataURL f1 = Some u1 → readAsDataURL f2 = Some u2 →
  decodeImage u1 = Some img1 → decodeImage u2 = Some img2 →
  let p2 := uploadAndClassifyImage readAsDataURL [f2] (uploadAndClassifyImage readAsDataURL [f1] p) in
  (∃ q, rtc (step readAsDataURL decodeImage) p2 q ∧ pending q = pending p ∧
        uploaded_src q = Some u2 ∧ results q = rendered (Image := Image) s (run_outcome s img1)) ∧
  (∃ q, rtc (step readAsDataURL decodeImage) p2 q ∧ pending q = pending p ∧
        uploaded_src q = Some u2 ∧ results q = rendered (Image := Image) s (run_outcome s img2)).
Proof.
  intros Hm Hr1 Hr2 Hd1 Hd2. cbv zeta.
  destruct (two_uploads_pending readAsDataURL decodeImage p s f1 f2 u1 u2 img1 img2)
    as (q0 & Hq0 & Hm0 & Hs0 & Hp0); [done..|].
  split.
  - destruct (finish_run readAsDataURL decodeImage q0 s (pending p) [TRunSettled (run_outcome s img1)]
                (run_outcome s img2)) as (q1 & Hstep1 & Hm1 & Hp1 & Hs1 & _); [done | done |].
    destruct (finish_run readAsDataURL decodeImage q1 s (pending p) [] (run_outcome s img1))
      as (q2 & Hstep2 & _ & Hp2 & Hs2 & Hres2); [done | done |].
    exists q2. split_and!; [| by rewrite Hp2, app_nil_r | congruence | done].
    eapply rtc_r; [eapply rtc_r|]; done.
  - destruct (finish_run readAsDataURL decodeImage q0 s (pending p ++ [TRunSettled (run_outcome s img2)]) []
                (run_outcome s img1)) as (q1 & Hstep1 & Hm1 & Hp1 & Hs1 & _);
      [done | by rewrite Hp0, <- app_assoc |].
    destruct (finish_run readAsDataURL decodeImage q1 s (pending p) [] (run_outcome s img2))
      as (q2 & Hstep2 & _ & Hp2 & Hs2 & Hres2); [done | by rewrite Hp1, app_nil_r |].
    exists q2. split_and!; [| by rewrite Hp2, app_nil_r | congruence | done].
    eapply rtc_r; [eapply rtc_r|]; done.
Qed.

End Claims.

(** ** A concrete browser and engine

    Files are names; the reader returns ["data:" ++ name]; two sources
    decode, as a solid red and a solid blue image; the session has one
    input and one output and returns the first ten values of its input. *)

Definition demo_read (name : string) : option string := Some (String.append "data:" name).

Definition demo_decode (url : string) : option SolidImage :=
  if decide (url = "data:red") then Some (mkSolid 255 0 0)
  else if decide (url = "data:blue") then Some (mkSolid 0 0 255) else None.

Definition demo_session : Session :=
  mkSession ["input"] ["output"]
    (λ feeds, match feeds !! "input" with
              | Some t => Ok {[ "output" := mkTensor "float32" (take 10 (tensor_data t)) [1; 10]%Z ]}
              | None => Throw (Error "input missing")
              end).

Definition demo_page : Type := page (Image := SolidImage).

(** The model has loaded. *)
Definition demo_loaded : demo_page := on_model_loaded demo_session (remove_task 0 init_page).

(** The user picked "red" before the model loaded; the image has decoded. *)
Definition demo_early : demo_page :=
  onloadend demo_decode (Some "data:red") (remove_task 1 (uploadAndClassifyImage demo_read ["red"] init_page)).

Lemma demo_loaded_reachable : reachable demo_read demo_decode demo_loaded.
Proof. eapply rtc_l; [by apply step_callback, (cb_model_loaded demo_decode _ 0) | apply rtc_refl]. Qed.

Lemma demo_early_reachable : reachable demo_read demo_decode demo_early.
Proof.
  eapply rtc_l; [apply (step_change demo_read demo_decode _ ["red"])|].
  eapply rtc_l; [by apply step_callback, (cb_reader demo_decode _ 1) | apply rtc_refl].
Qed.

Definition demo_output : gmap string Tensor := {[ "output" := mkTensor "float32" spec_example [1; 10]%Z ]}.

(** The session reads the first ten values of a solid image's tensor:
    ten copies of the stored red byte. *)
Lemma demo_take_ten rgba :
  length rgba = 4 →
  take 10 (planar_ref 177 (solid_pixels (Z.to_nat (177 * 177)) rgba)) =
    replicate 10 (fround (normalize rgba.[0])).
Proof.
  intros Hl. apply list_eq. intros i.
  destruct (decide (i < 10)) as [Hi|Hi].
  - rewrite lookup_take_lt, lookup_replicate_2 by lia.
    rewrite <- zlookup_nat, planar_ref_solid by (done || lia).
    by rewrite Z.div_small by lia.
  - rewrite lookup_take_ge by lia. symmetry. apply lookup_replicate_None. lia.
Qed.

Lemma demo_run_outcome (img : SolidImage) :
  run_outcome demo_session img =
    Ok {[ "output" := mkTensor "float32" (replicate 10 (stored_byte (clamp_byte (solid_r img)))) [1; 10]%Z ]}.
Proof.
  unfold run_outcome, preprocessImage. rewrite preprocess_side_tensor by lia.
  cbn [session_run demo_session inputNames first_name]. rewrite lookup_singleton, decide_True by done.
  cbn [tensor_data]. unfold canvas_pixels, solid_canvas. by rewrite demo_take_ten.
Qed.

(** The race is visible: the page that shows the blue preview can show
    the red image's classification (ten rows at 100.00%), which differs
    from the blue one's (ten rows at 0.00%). *)
Lemma demo_renderings_differ :
  rendered (Image := SolidImage) demo_session (run_outcome demo_session (mkSolid 255 0 0)) ≠
  rendered (Image := SolidImage) demo_session (run_outcome demo_session (mkSolid 0 0 255)).
Proof. rewrite !demo_run_outcome. vm_compute. discriminate. Qed.

Lemma model_written_once_witness :
  let q := uploadAndClassifyImage demo_read ["red"] demo_loaded in
  reachable demo_read demo_decode demo_loaded ∧ model demo_loaded = Some demo_session ∧
  rtc (step demo_read demo_decode) demo_loaded q ∧ model q = Some demo_session.
Proof.
  cbv zeta. assert (rtc (step demo_read demo_decode) demo_loaded
                      (uploadAndClassifyImage demo_read ["red"] demo_loaded)) as Hs
    by (apply rtc_once, step_change).
  split_and!; [apply demo_loaded_reachable | reflexivity | exact Hs |].
  apply (model_written_once demo_read demo_decode demo_loaded); [apply demo_loaded_reachable | reflexivity | exact Hs].
Defined.

Lemma reachable_results_wf_witness :
  reachable demo_read demo_decode demo_early ∧ results_wf (results demo_early).
Proof.
  split; [apply demo_early_reachable|].
  apply (reachable_results_wf demo_read demo_decode); apply demo_early_reachable.
Defined.

Lemma image_onload_without_model_witness :
  model demo_early = None ∧
  let q := fst (image_onload (mkSolid 255 0 0) demo_early) in
  results q = [Message classify_failed] ∧ pending q = pending demo_early ∧ model q = None ∧
  console q = console demo_early ++
    [ConsoleError "Error classifying image:" (Error "Model is not loaded. Please refresh the page.")].
Proof. split; [reflexivity | apply image_onload_without_model; reflexivity]. Defined.

Lemma after_run_refines_witness :
  let t := mkTensor "float32" spec_example [1; 10]%Z in
  model demo_loaded = Some demo_session ∧
  demo_output !! first_name (outputNames demo_session) = Some t ∧
  Forall not_nan (tensor_data t) ∧ length (tensor_data t) = length classNames ∧
  ∃ r, rank_spec classNames (tensor_data t) r ∧
       after_run (Ok demo_output) demo_loaded = (set_results (rank_view r) demo_loaded, Ok ()).
Proof.
  cbv zeta. assert (Forall not_nan spec_example) as Hall by (repeat constructor).
  split_and!; [reflexivity | reflexivity | exact Hall | reflexivity |].
  apply (after_run_refines demo_loaded demo_session); [reflexivity | reflexivity | exact Hall | reflexivity].
Defined.

Lemma after_run_errors_witness :
  let o : exc (gmap string Tensor) := Throw (Rejection "session closed") in
  model demo_loaded = Some demo_session ∧
  let q := fst (after_run o demo_loaded) in
  results q = [Message classify_failed] ∧ model q = Some demo_session ∧ pending q = pending demo_loaded ∧
  ∃ e, console q = console demo_loaded ++ [ConsoleError "Error classifying image:" e].
Proof.
  cbv zeta. split; [reflexivity|].
  apply (after_run_errors demo_loaded demo_session); [reflexivity | left; eexists; reflexivity].
Defined.

Lemma reader_decode_failure_witness :
  let p := uploadAndClassifyImage demo_read ["green"] demo_loaded in
  pending p !! 0 = Some (TReaderLoadEnd (Some "data:green")) ∧ demo_decode (src_of (Some "data:green")) = None ∧
  let q := onloadend demo_decode (Some "data:green") (remove_task 0 p) in
  step demo_read demo_decode p q ∧ uploaded_src q = Some "data:green" ∧
  results q = results p ∧ console q = console p ∧ model q = model p ∧ pending q = delete 0 (pending p).
Proof.
  cbv zeta. do 2 (split; [reflexivity|]).
  apply reader_decode_failure; reflexivity.
Defined.

Lemma upload_race_witness :
  let p2 := uploadAndClassifyImage demo_read ["blue"] (uploadAndClassifyImage demo_read ["red"] demo_loaded) in
  rendered (Image := SolidImage) demo_session (run_outcome demo_session (mkSolid 255 0 0)) ≠
  rendered (Image := SolidImage) demo_session (run_outcome demo_session (mkSolid 0 0 255)) ∧
  model demo_loaded = Some demo_session ∧
  demo_read "red" = Some "data:red" ∧ demo_read "blue" = Some "data:blue" ∧
  demo_decode "data:red" = Some (mkSolid 255 0 0) ∧ demo_decode "data:blue" = Some (mkSolid 0 0 255) ∧
  (∃ q, rtc (step demo_read demo_decode) p2 q ∧ pending q = pending demo_loaded ∧
        uploaded_src q = Some "data:blue" ∧ results q = rendered (Image := SolidImage) demo_session (run_outcome demo_session (mkSolid 255 0 0))) ∧
  (∃ q, rtc (step demo_read demo_decode) p2 q ∧ pending q = pending demo_loaded ∧
        uploaded_src q = Some "data:blue" ∧ results q = rendered (Image := SolidImage) demo_session (run_outcome demo_session (mkSolid 0 0 255))).
Proof.
  cbv zeta. split; [apply demo_renderings_differ|]. do 5 (split; [reflexivity|]).
  apply (upload_race demo_read demo_decode demo_loaded demo_session "red" "blue" "data:red" "data:blue");
    reflexivity.
Defined.

End Pipeline.
