(* ===== verification/EventLoop.v ===== *)
(** * The event loop: termination and liveness of the callbacks

    [Pipeline.step] is one turn of the browser's event loop: a pending
    [callback] (the model load settling, a reader's [onloadend], an
    image's [onload], the continuation of [await model.run]) or a new
    [change] event.  The user can upload forever, but the callbacks alone
    cannot run forever: each one removes itself and adds at most one
    callback of a later stage (reader, then image, then run), so the
    [pending_weight] of the page (3 per reader, 2 per image, 1 per load
    or run) decreases at every callback.  From it: the callback relation
    is well-founded, every page reached can run all its callbacks to the
    end, and a page with none left never shows "Classifying...": the
    message of [image.onload] is always replaced by a result or the
    failure message once its run settles. *)

From stdpp Require Import base list strings gmap relations.
From Stdlib Require Import Lia Wf_nat Wellfounded.
From S2P Require Import Prelude Preprocess Ranking Pipeline.

Module EventLoop.
Import Preprocess Ranking Pipeline.

(** ** The measure *)

Definition weight {Image} (t : task (Image := Image)) : nat :=
  match t with
  | TLoadModel => 1
  | TReaderLoadEnd _ => 3
  | TImageOnload _ => 2
  | TRunSettled _ => 1
  end.

Definition pending_weight {Image} (l : list (task (Image := Image))) : nat :=
  sum_list_with weight l.

(** "Classifying..." is shown only while a run is pending. *)
Definition classifying_inv {Image} (p : page (Image := Image)) : Prop :=
  results p = [Message classifying] → Exists (λ t, is_run t = true) (pending p).

Lemma pending_weight_app {Image} (l k : list (task (Image := Image))) :
  pending_weight (l ++ k) = pending_weight l + pending_weight k.
Proof. apply sum_list_with_app. Qed.

Lemma pending_weight_snoc {Image} (l : list (task (Image := Image))) t :
  pending_weight (l ++ [t]) = pending_weight l + weight t.
Proof. rewrite pending_weight_app. unfold pending_weight. simpl. lia. Qed.

Lemma pending_weight_delete {Image} (l : list (task (Image := Image))) i t :
  l !! i = Some t → pending_weight l = pending_weight (delete i l) + weight t.
Proof.
  unfold pending_weight. induction l as [|x l IH] in i |- *; intros Hi; [done|].
  destruct i as [|i]; simpl in Hi |- *; [injection Hi as ->; lia|].
  rewrite (IH i Hi). lia.
Qed.

(** Removing a callback that is not a run keeps the pending runs. *)
Lemma Exists_run_delete {Image} (l : list (task (Image := Image))) i t :
  l !! i = Some t → is_run t = false →
  Exists (λ t, is_run t = true) l → Exists (λ t, is_run t = true) (delete i l).
Proof.
  induction l as [|x l IH] in i |- *; intros Hi Ht Hex; [inversion Hex|].
  destruct i as [|i]; simpl in Hi |- *.
  - injection Hi as ->. inversion Hex; subst; [congruence | done].
  - inversion Hex; subst; [by left | right; eauto].
Qed.

Section Callbacks.
Context {File Image : Type} `{CanvasLaws Image}.
Context (readAsDataURL : File → option string).
Context (decodeImage : string → option Image).

Lemma image_onload_pending image (p : page (Image := Image)) :
  pending (fst (image_onload image p)) = pending p ∨
  ∃ o, pending (fst (image_onload image p)) = pending p ++ [TRunSettled o].
Proof.
  destruct (model p) as [s|] eqn:Hm.
  - rewrite (image_onload_model image p s) by done. right. eauto.
  - rewrite image_onload_no_model by done. by left.
Qed.

(** Every callback lowers the weight of the pending list. *)
Lemma callback_decreases (p q : page (Image := Image)) :
  callback decodeImage p q → pending_weight (pending q) < pending_weight (pending p).
Proof.
  intros Hcb. destruct Hcb as [p i s Hi|p i e Hi|p i r Hi|p i image Hi|p i o Hi];
    rewrite (pending_weight_delete _ _ _ Hi); simpl weight.
  - cbn -[pending_weight]. lia.
  - cbn -[pending_weight]. lia.
  - unfold onloadend. destruct (decodeImage (src_of r)); cbn -[pending_weight];
      rewrite ?pending_weight_snoc; simpl weight; lia.
  - destruct (image_onload_pending image (remove_task i p)) as [->|[o ->]];
      cbn -[pending_weight]; rewrite ?pending_weight_snoc; simpl weight; lia.
  - rewrite (proj2 (proj2 (after_run_frame o _))). cbn -[pending_weight]. lia.
Qed.

(** A page with a pending callback can run one (the first). *)
Lemma callback_progress (p : page (Image := Image)) :
  pending p ≠ [] → ∃ q, callback decodeImage p q.
Proof.
  destruct (pending p) as [|t l] eqn:Hp; [done|]. intros _.
  assert (pending p !! 0 = Some t) as Ht by (by rewrite Hp).
  destruct t; eexists.
  - by apply (cb_model_error _ _ 0 (Error "")).
  - by apply cb_reader with (i := 0).
  - by apply cb_image with (i := 0).
  - by apply cb_run with (i := 0).
Qed.

Lemma after_run_not_classifying o (p : page (Image := Image)) :
  results (fst (after_run o p)) ≠ [Message classifying].
Proof.
  run_handler; try (unfold classify_failed, classifying; discriminate).
  match goal with Hs : show_results _ _ _ = (_, Ok _) |- _ =>
    destruct (show_results_ok_last _ _ _ _ _ Hs) as (rows & lbl & pct & ->) end.
  destruct rows as [|? [|]]; discriminate.
Qed.

Lemma step_classifying_inv (p q : page (Image := Image)) :
  step readAsDataURL decodeImage p q → classifying_inv p → classifying_inv q.
Proof.
  unfold classifying_inv. intros Hstep Hc.
  destruct Hstep as [? ? [p i s Hi|p i e Hi|p i r Hi|p i image Hi|p i o Hi]|p [|f files]].
  - cbn. intros Hr. by apply (Exists_run_delete _ _ _ Hi), Hc.
  - cbn. intros Hr. by apply (Exists_run_delete _ _ _ Hi), Hc.
  - unfold onloadend. destruct (decodeImage (src_of r)); cbn; intros Hr;
      [apply Exists_app; left|]; by apply (Exists_run_delete _ _ _ Hi), Hc.
  - destruct (model (remove_task i p)) as [s|] eqn:Hm.
    + rewrite (image_onload_model image _ s) by done. cbn. intros _.
      apply Exists_app. right. by constructor.
    + rewrite image_onload_no_model by done. cbn. unfold classify_failed, classifying. discriminate.
  - intros Hr. by apply after_run_not_classifying in Hr.
  - cbn. unfold please_upload, classifying. discriminate.
  - cbn. intros Hr. apply Exists_app. left. by apply Hc.
Qed.

Lemma reachable_classifying_inv (p : page (Image := Image)) :
  reachable readAsDataURL decodeImage p → classifying_inv p.
Proof.
  intros Hr. cut (∀ p0, rtc (step readAsDataURL decodeImage) p0 p → classifying_inv p0 → classifying_inv p).
  - intros Hgen. apply (Hgen _ Hr). discriminate.
  - intros p0 Hp0. induction Hp0; eauto using step_classifying_inv.
Qed.

Lemma rtc_callback_step (p q : page (Image := Image)) :
  rtc (callback decodeImage) p q → rtc (step readAsDataURL decodeImage) p q.
Proof. induction 1; [done | eapply rtc_l; [by apply step_callback | done]]. Qed.

(** With nothing pending, a reachable page does not show "Classifying...". *)
Lemma idle_not_classifying (p : page (Image := Image)) :
  reachable readAsDataURL decodeImage p → pending p = [] → results p ≠ [Message classifying].
Proof.
  intros Hr Hp Hc. pose proof (reachable_classifying_inv p Hr Hc) as Hex.
  rewrite Hp in Hex. inversion Hex.
Qed.

(** C7: termination of the callbacks: there is no infinite sequence of
    callbacks (model load, [onloadend], [onload], continuation of a
    run) without a new user event. *)
Theorem callbacks_terminate :
  well_founded (λ q p : page (Image := Image), callback decodeImage p q).
Proof.
  apply (wf_incl _ _ (ltof _ (λ p, pending_weight (pending p)))); [|apply well_founded_ltof].
  intros q p Hcb. by apply callback_decreases.
Qed.

(** C9: quiescence: whatever order the callbacks run in from a
    reachable page, when none can run any more, none is pending and the
    page does not show "Classifying...". *)
Theorem callbacks_quiescent (p q : page (Image := Image)) :
  reachable readAsDataURL decodeImage p → rtc (callback decodeImage) p q →
  (∀ q', ¬ callback decodeImage q q') →
  pending q = [] ∧ results q ≠ [Message classifying].
Proof.
  intros Hr Hpq Hstuck.
  assert (reachable readAsDataURL decodeImage q) as Hq
    by (eapply rtc_trans; [exact Hr | by apply rtc_callback_step]).
  assert (pending q = []) as Hnil.
  { destruct (pending q) as [|t l] eqn:Hp; [done|].
    destruct (callback_progress q) as [q' Hq']; [by rewrite Hp|]. by destruct (Hstuck q'). }
  split; [done | by apply idle_not_classifying].
Qed.

(** C6: liveness: from every reachable page, the pending callbacks can
    all run, ending on a page with none pending that does not show
    "Classifying...". *)
Theorem callbacks_complete (p : page (Image := Image)) :
  reachable readAsDataURL decodeImage p →
  ∃ q, rtc (callback decodeImage) p q ∧ pending q = [] ∧ results q ≠ [Message classifying].
Proof.
  remember (pending_weight (pending p)) as n eqn:Hn. revert p Hn.
  induction n as [n IH] using lt_wf_ind. intros p Hn Hr.
  assert (pending p = [] ∨ pending p ≠ []) as [Hp|Hp] by (destruct (pending p); [left|right]; done).
  - exists p. split_and!; [done | done | by apply idle_not_classifying].
  - destruct (callback_progress p Hp) as [q1 Hq1].
    pose proof (callback_decreases _ _ Hq1) as Hlt.
    destruct (IH (pending_weight (pending q1))) with q1 as (q & Hq1q & Hnil & Hres);
      [lia | done | eapply rtc_r; [exact Hr | by apply step_callback] |].
    exists q. split_and!; [by eapply rtc_l | done | done].
Qed.

End Callbacks.

(** ** Examples on the concrete browser of [Pipeline] *)

(** The user picks "green" (which does not decode) before the model has
    loaded; then the reader finishes and the model load fails. *)
Definition demo_green : demo_page := uploadAndClassifyImage demo_read ["green"] init_page.

Definition demo_green_done : demo_page :=
  on_model_error (Error "network")
    (remove_task 0 (onloadend demo_decode (Some "data:green") (remove_task 1 demo_green))).

Lemma demo_green_reachable : reachable demo_read demo_decode demo_green.
Proof. apply rtc_once, step_change. Qed.

Lemma demo_green_runs : rtc (callback demo_decode) demo_green demo_green_done.
Proof.
  eapply rtc_l; [by apply (cb_reader demo_decode _ 1 (Some "data:green"))|].
  eapply rtc_l; [by apply (cb_model_error demo_decode _ 0) | apply rtc_refl].
Qed.

Lemma demo_green_stuck : ∀ q', ¬ callback demo_decode demo_green_done q'.
Proof.
  intros q' Hcb. remember demo_green_done as d eqn:Hd.
  assert (pending d = []) as Hp by (rewrite Hd; reflexivity).
  destruct Hcb as [p i s Hi|p i e Hi|p i r Hi|p i image Hi|p i o Hi];
    rewrite Hp, lookup_nil in Hi; discriminate.
Qed.

Lemma callbacks_terminate_witness :
  well_founded (λ q p : demo_page, callback demo_decode p q).
Proof. apply callbacks_terminate. Defined.

Lemma callbacks_quiescent_witness :
  reachable demo_read demo_decode demo_green ∧
  rtc (callback demo_decode) demo_green demo_green_done ∧
  (∀ q', ¬ callback demo_decode demo_green_done q') ∧
  pending demo_green_done = [] ∧ results demo_green_done ≠ [Message classifying].
Proof.
  split_and!; [apply demo_green_reachable | apply demo_green_runs | apply demo_green_stuck |
    apply (callbacks_quiescent demo_read demo_decode demo_green);
      [apply demo_green_reachable | apply demo_green_runs | apply demo_green_stuck]..].
Defined.

Lemma callbacks_complete_witness :
  reachable demo_read demo_decode demo_green ∧
  ∃ q, rtc (callback demo_decode) demo_green q ∧ pending q = [] ∧ results q ≠ [Message classifying].
Proof.
  split; [apply demo_green_reachable|].
  apply (callbacks_complete demo_read demo_decode). apply demo_green_reachable.
Defined.

End EventLoop.
