(* ===== verification/Rounding.v ===== *)
(** * The rounding step of [toFixed]

    ECMAScript's [Number.prototype.toFixed(f)] (step 10.a), for a finite
    [x] with |x| < 10^21: "Let n be an integer for which n / 10^f - x is as
    close to zero as possible.  If there are two such n, pick the larger
    n."  [JsNumber.Number.scaled_round] computes that [n] from the binary
    mantissa and exponent of |x| with one integer division,
    [(2 * num + d) / (2 * d)].  This file states the specification's choice
    on the exact rational value of the Number ([toFixed_n_spec], on
    [JsNumber.Number.to_Q]) and proves that [scaled_round] makes it: the
    rational distances reduce to integers through the representation
    [a # d] of [Q], by setoid rewriting under [Qabs] and [Qminus].  The
    claim is about the script's use of it: the percentage shown for a
    probability, [(prob * 100).toFixed(2)] ([Ranking.Ranking.percent]),
    is [prob * 100] rounded to hundredths. *)

From stdpp Require Import base tactics.
From Stdlib Require Import ZArith QArith Qabs Qpower SpecFloat String Lia.
From S2P Require Import Prelude JsNumber Ranking.

Module Rounding.
Import Number Ranking.

(** The [n] of step 10.a for [x] and [f] digits. *)
Definition toFixed_n_spec (f : nat) (x : Q) (n : Z) : Prop :=
  let p := inject_Z (10 ^ Z.of_nat f) in
  ∀ k : Z, (Qabs (inject_Z n / p - x) <= Qabs (inject_Z k / p - x))%Q ∧
           ((Qabs (inject_Z k / p - x) == Qabs (inject_Z n / p - x))%Q → (k <= n)%Z).

(** ** Integer rounding, half up *)

(** [(2a + d) / (2d)] is the integer nearest to [a / d], the larger one on
    a tie. *)
Lemma round_half_up_nearest A D :
  (0 < D)%Z →
  let n := ((2 * A + D) / (2 * D))%Z in
  ∀ k, (Z.abs (n * D - A) <= Z.abs (k * D - A))%Z ∧
       (Z.abs (k * D - A) = Z.abs (n * D - A) → k <= n)%Z.
Proof.
  intros HD n k.
  pose proof (Z.div_mod (2 * A + D) (2 * D) ltac:(lia)) as Hdm.
  pose proof (Z.mod_pos_bound (2 * A + D) (2 * D) ltac:(lia)) as Hr.
  fold n in Hdm. set (r := ((2 * A + D) mod (2 * D))%Z) in *.
  assert (2 * (n * D - A) = D - r)%Z as Hn by nia.
  destruct (Z.lt_trichotomy k n) as [Hk|[->|Hk]].
  - assert (k * D <= n * D - D)%Z by nia. lia.
  - lia.
  - assert (n * D + D <= k * D)%Z by nia. lia.
Qed.

(** [scaled_round] is that division for [a = m * 2^max(e,0) * 10^f] and
    [d = 2^max(-e,0)]. *)
Lemma scaled_round_div m e f :
  scaled_round m e f =
    ((2 * (Zpos m * 2 ^ Z.max e 0 * 10 ^ Z.of_nat f) + 2 ^ Z.max (- e) 0) /
     (2 * 2 ^ Z.max (- e) 0))%Z.
Proof.
  unfold scaled_round. destruct (Z.leb_spec 0 e).
  - rewrite Z.max_l, Z.max_r by lia. rewrite Z.pow_0_r, (Z.mul_1_r 2).
    replace (2 * (Zpos m * 2 ^ e * 10 ^ Z.of_nat f) + 1)%Z
      with (1 + (Zpos m * 10 ^ Z.of_nat f * 2 ^ e) * 2)%Z by ring.
    rewrite Z.div_add, (Z.div_small 1 2) by lia. lia.
  - rewrite Z.max_r, Z.max_l by lia. rewrite Z.pow_0_r, Z.mul_1_r. done.
Qed.

(** ** From rationals to integers *)

Lemma Qmake_le (a b : Z) (d : positive) : ((a # d) <= (b # d))%Q ↔ (a <= b)%Z.
Proof. unfold Qle. simpl. split; intros; nia. Qed.

Lemma Qmake_eq (a b : Z) (d : positive) : ((a # d) == (b # d))%Q ↔ a = b.
Proof. unfold Qeq. simpl. split; [|intros ->; done]. intros. nia. Qed.

Lemma Qabs_Qmake_minus (n a : Z) (p d : positive) :
  (Qabs ((n # p) - (a # d)) == Z.abs (n * Zpos d - a * Zpos p) # (p * d))%Q.
Proof. unfold Qeq. simpl. do 2 f_equal. lia. Qed.

Lemma inject_Z_div_pos (n : Z) (p : Z) :
  (0 < p)%Z → (inject_Z n / inject_Z p == n # Z.to_pos p)%Q.
Proof. intros Hp. rewrite Qmake_Qdiv, Z2Pos.id by done. reflexivity. Qed.

(** The value of a positive finite Number as a fraction. *)
Lemma to_Q_finite_frac m e x :
  to_Q (S754_finite false m e) = Some x →
  (x == Zpos m * 2 ^ Z.max e 0 # Z.to_pos (2 ^ Z.max (- e) 0))%Q.
Proof.
  intros Hx. injection Hx as <-. destruct (Z.leb_spec 0 e).
  - rewrite Z.max_l, Z.max_r by lia. simpl Z.to_pos.
    rewrite <- (Zpower_Qpower 2 e) by lia. rewrite <- inject_Z_mult. reflexivity.
  - rewrite Z.max_r, Z.max_l by lia. rewrite Z.mul_1_r.
    rewrite Qmake_Qdiv, Z2Pos.id by (apply Z.pow_pos_nonneg; lia).
    replace e with (- (- e))%Z at 1 by lia.
    rewrite Qpower_opp, (Zpower_Qpower 2 (- e)) by lia. reflexivity.
Qed.

(** [scaled_round] makes the choice of step 10.a. *)
Lemma scaled_round_nearest m e f x :
  to_Q (S754_finite false m e) = Some x → toFixed_n_spec f x (scaled_round m e f).
Proof.
  intros Hx k. cbv zeta.
  assert (0 < 10 ^ Z.of_nat f)%Z as HP by (apply Z.pow_pos_nonneg; lia).
  assert (0 < 2 ^ Z.max (- e) 0)%Z as HD by (apply Z.pow_pos_nonneg; lia).
  rewrite (to_Q_finite_frac m e x Hx), !(inject_Z_div_pos _ (10 ^ Z.of_nat f)) by done.
  rewrite !Qabs_Qmake_minus, Qmake_le, Qmake_eq, !Z2Pos.id by done.
  rewrite scaled_round_div.
  apply round_half_up_nearest. done.
Qed.

(** C11: the percentage the script shows for a probability (lines 99,
    101 and 109, [(prob * 100).toFixed(2)]): when [prob * 100], computed
    in binary64, is a positive finite Number of value [y] below 10^21,
    [percent prob] is the integer [n] nearest to [y * 100] (the larger
    on a tie) written with two digits after the point: [y] rounded to
    hundredths, as ECMAScript's step 10.a chooses it. *)
Theorem percent_spec prob m e y :
  mul prob (of_Z 100) = S754_finite false m e → ge_1e21 m e = false →
  to_Q (S754_finite false m e) = Some y →
  ∃ n, toFixed_n_spec 2 y n ∧ percent prob = fixed_digits n 2.
Proof.
  intros Hmul Hge Hy. exists (scaled_round m e 2). split.
  - by apply scaled_round_nearest.
  - unfold percent, toFixed. by rewrite Hmul, Hge.
Qed.

(** The probability 0.6 of the specification's example, as the binary32
    value the model returns: [prob * 100] is 60.0000023841857..., shown
    as "60.00". *)
Lemma percent_spec_witness :
  let prob := fround (div (of_Z 6) (of_Z 10)) in
  let y := (inject_Z 8444249636864000 * Qpower (inject_Z 2) (-47))%Q in
  mul prob (of_Z 100) = S754_finite false 8444249636864000 (-47) ∧
  ge_1e21 8444249636864000 (-47) = false ∧
  to_Q (S754_finite false 8444249636864000 (-47)) = Some y ∧
  percent prob = "60.00"%string ∧
  ∃ n, toFixed_n_spec 2 y n ∧ percent prob = fixed_digits n 2.
Proof.
  cbv zeta. split_and!; [vm_compute; reflexivity | reflexivity | reflexivity | vm_compute; reflexivity |].
  apply (percent_spec _ 8444249636864000 (-47)); [vm_compute; reflexivity | reflexivity | reflexivity].
Defined.

End Rounding.
